(** * vue-login-demo: the FormField widget and the validated LoginForm

    A shallow embedding of the two components the specification talks
    about: the [inputId] computed property of FormField.vue and the
    validation and submission workflow of the validated LoginForm.vue
    (the variant that imports FormField and carries [validationRules]).

    Conventions of the embedding.
    - A JavaScript string is a sequence of UTF-16 code units; the model
      uses [string], whose characters ([ascii]) hold the code units
      below 256.  The character classes of the source ([A-Za-z], [\d],
      [\s], [.]) and [toLowerCase] are exact on that range.
    - JavaScript values that cross the component boundary (responses,
      rejection reasons, payloads) are [Js.JsVal]; objects are finite
      maps from property names to values.
    - [handleSubmit] is an async method with one suspension point.  The
      model runs it in one piece: no other event is interleaved between
      the request and its settlement. *)

From Stdlib Require Import ZArith Ascii String Bool Lia DecimalString.
From stdpp Require Import gmap strings list.

Local Open Scope string_scope.

(* ===================================================================== *)
(** ** JavaScript values                                                  *)
(* ===================================================================== *)

Module Js.

(** Numbers are restricted to integers: the only numbers the source
    inspects are HTTP status codes. *)
#[warnings="-register-all"] Inductive JsVal : Type :=
| JUndefined
| JNull
| JBool (b : bool)
| JNum (n : Z)
| JStr (s : string)
| JObj (fields : gmap string JsVal).

(** ToBoolean. *)
Definition truthy (v : JsVal) : bool :=
  match v with
  | JUndefined | JNull => false
  | JBool b => b
  | JNum n => negb (n =? 0)%Z
  | JStr s => negb (String.eqb s "")
  | JObj _ => true
  end.

(** [a || b]: the left operand when it is truthy, else the right one. *)
Definition or (a b : JsVal) : JsVal := if truthy a then a else b.

(** [a || b] on two strings. *)
Definition str_or (a b : string) : string :=
  if truthy (JStr a) then a else b.

(** [v === n] for a numeric literal [n]. *)
Definition strict_eq_num (v : JsVal) (n : Z) : bool :=
  match v with
  | JNum m => (m =? n)%Z
  | _ => false
  end.

Definition nullish (v : JsVal) : bool :=
  match v with
  | JUndefined | JNull => true
  | _ => false
  end.

(** [v.k] for a [v] that is neither null nor undefined.  The property
    names the components read (response, data, message, status,
    success, user) exist on no primitive wrapper, so a primitive
    yields undefined. *)
Definition get (v : JsVal) (k : string) : JsVal :=
  match v with
  | JObj fields => default JUndefined (fields !! k)
  | _ => JUndefined
  end.

(** [v?.k]. *)
Definition opt_chain (v : JsVal) (k : string) : JsVal :=
  if nullish v then JUndefined else get v k.

(** The TypeError raised by a property read on null or undefined; it
    carries no [response] property. *)
Definition TypeError : JsVal :=
  JObj {[ "name" := JStr "TypeError" ]}.

End Js.

(* ===================================================================== *)
(** ** Characters and the regular expressions of the source               *)
(* ===================================================================== *)

Module Chars.

Definition in_range (lo hi c : ascii) : bool :=
  (Ascii.leb lo c) && (Ascii.leb c hi).

Definition code_is (n : N) (c : ascii) : bool := (N_of_ascii c =? n)%N.

(** [\d]. *)
Definition is_digit (c : ascii) : bool := in_range "0" "9" c.

(** LineTerminator among the code units below 256: LF and CR. *)
Definition is_line_terminator (c : ascii) : bool :=
  code_is 10 c || code_is 13 c.

(** [\s] among the code units below 256: TAB, LF, VT, FF, CR, SP and
    NBSP. *)
Definition is_space (c : ascii) : bool :=
  code_is 9 c || code_is 10 c || code_is 11 c || code_is 12 c
  || code_is 13 c || code_is 32 c || code_is 160 c.

Definition shift_code (f : N -> N) (c : ascii) : ascii :=
  ascii_of_N (f (N_of_ascii c)).

(** [String.prototype.toLowerCase] on one code unit below 256: A-Z and
    the capital letters U+00C0..U+00DE (without the multiplication
    sign U+00D7) move up by 32. *)
Definition toLowerCase_char (c : ascii) : ascii :=
  if in_range "A" "Z" c
     || ((192 <=? N_of_ascii c)%N && (N_of_ascii c <=? 222)%N
         && negb (code_is 215 c))
  then shift_code (fun n => n + 32)%N c
  else c.

(** [String.prototype.toUpperCase] on one code unit: exact on ASCII,
    which is all the field names contain. *)
Definition toUpperCase_char (c : ascii) : ascii :=
  if in_range "a" "z" c then shift_code (fun n => n - 32)%N c else c.

Fixpoint map_string (f : ascii -> ascii) (s : string) : string :=
  match s with
  | "" => ""
  | String c s' => String (f c) (map_string f s')
  end.

Definition toLowerCase : string -> string := map_string toLowerCase_char.
Definition toUpperCase : string -> string := map_string toUpperCase_char.

(** [s.charAt(0)] and [s.slice(1)]. *)
Definition charAt0 (s : string) : string :=
  match s with
  | "" => ""
  | String c _ => String c ""
  end.

Definition slice1 (s : string) : string :=
  match s with
  | "" => ""
  | String _ s' => s'
  end.

End Chars.

Module Regex.
Import Chars.

Inductive ClassItem : Type :=
| CRange (lo hi : ascii)   (* lo-hi *)
| CDigit                   (* \d *)
| CSpace.                  (* \s *)

Inductive Atom : Type :=
| ADot                               (* . *)
| AClass (items : list ClassItem).   (* [...]; a bare \s is [\s] *)

Definition item_matches (it : ClassItem) (c : ascii) : bool :=
  match it with
  | CRange lo hi => in_range lo hi c
  | CDigit => is_digit c
  | CSpace => is_space c
  end.

Definition atom_matches (a : Atom) (c : ascii) : bool :=
  match a with
  | ADot => negb (is_line_terminator c)
  | AClass items => existsb (fun it => item_matches it c) items
  end.

(** A pattern is a sequence of terms, each followed by the rest of the
    pattern.  Quantifiers apply to one-character atoms, which is all
    the source uses; they are greedy. *)
Inductive Regex : Type :=
| RDone
| RBol (rest : Regex)                                          (* ^ *)
| REol (rest : Regex)                                          (* $ *)
| RRep (a : Atom) (lo : nat) (hi : option nat) (rest : Regex)  (* a{lo,hi} *)
| RLook (body rest : Regex).                                   (* (?=body) *)

Definition RAtom (a : Atom) : Regex -> Regex := RRep a 1 (Some 1).
Definition RStar (a : Atom) : Regex -> Regex := RRep a 0 None.
Definition RPlus (a : Atom) : Regex -> Regex := RRep a 1 None.
Definition RAtLeast (n : nat) (a : Atom) : Regex -> Regex := RRep a n None.

Definition below (hi : option nat) (n : nat) : bool :=
  match hi with
  | None => true
  | Some m => Nat.ltb n m
  end.

(** Greedy repetition with backtracking: having taken [n] characters,
    first try to take one more; when that fails, hand over to the
    continuation [k] if at least [lo] were taken. *)
Fixpoint rep_greedy (a : Atom) (lo : nat) (hi : option nat)
    (k : nat -> string -> option string)
    (n i : nat) (s : string) {struct s} : option string :=
  let stop := if Nat.leb lo n then k i s else None in
  match s with
  | "" => stop
  | String c s' =>
      if atom_matches a c && below hi n then
        match rep_greedy a lo hi k (S n) (S i) s' with
        | Some rest => Some rest
        | None => stop
        end
      else stop
  end.

(** [rmatch r i s]: match [r] against [s], the input from index [i]
    on; the result is the input left after the match.  Neither
    pattern has the [m] flag: [^] holds at index 0 only and [$] at the
    end of the input only. *)
Fixpoint rmatch (r : Regex) : nat -> string -> option string :=
  match r with
  | RDone => fun _ s => Some s
  | RBol rest => fun i s => if Nat.eqb i 0 then rmatch rest i s else None
  | REol rest => fun i s =>
      match s with
      | "" => rmatch rest i s
      | String _ _ => None
      end
  | RRep a lo hi rest => rep_greedy a lo hi (rmatch rest) 0
  | RLook body rest => fun i s =>
      match rmatch body i s with
      | Some _ => rmatch rest i s
      | None => None
      end
  end.

(** The first index from [i] on at which [r] matches. *)
Fixpoint search (r : Regex) (i : nat) (s : string) : option (nat * string) :=
  match rmatch r i s with
  | Some rest => Some (i, rest)
  | None =>
      match s with
      | "" => None
      | String _ s' => search r (S i) s'
      end
  end.

(** Truthiness of [s.match(r)] for a pattern without the [g] flag: an
    array when some index matches, null otherwise. *)
Definition matches (s : string) (r : Regex) : bool :=
  match search r 0 s with
  | Some _ => true
  | None => false
  end.

(** [s.replace(r, rep)] for a pattern with the [g] flag and a
    replacement without [$] escapes.  [skip] counts the characters of
    the current match still to be dropped; after an empty match the
    scan moves on by one character, which is copied. *)
Fixpoint replace_from (r : Regex) (rep : string) (skip i : nat) (s : string)
    : string :=
  match s with
  | "" =>
      match skip, rmatch r i "" with
      | 0, Some _ => rep
      | _, _ => ""
      end
  | String c s' =>
      match skip with
      | S k => replace_from r rep k (S i) s'
      | 0 =>
          match rmatch r i s with
          | Some rest =>
              match String.length s - String.length rest with
              | 0 => rep ++ String c (replace_from r rep 0 (S i) s')
              | S k => rep ++ replace_from r rep k (S i) s'
              end
          | None => String c (replace_from r rep 0 (S i) s')
          end
      end
  end.

Definition replace_all (s : string) (r : Regex) (rep : string) : string :=
  replace_from r rep 0 0 s.

End Regex.

(* ===================================================================== *)
(** ** FormField.vue                                                      *)
(* ===================================================================== *)

Module FormField.
Import Chars Regex.

(** [/\s+/g] *)
Definition whitespace_run : Regex := RPlus (AClass [CSpace]) RDone.

(** [inputId() { return `field-${this.label.toLowerCase().replace(/\s+/g, '-')}`; }] *)
Definition inputId (label : string) : string :=
  "field-" ++ replace_all (toLowerCase label) whitespace_run "-".

(** The specification's wording of the same identifier: walk the
    lower-cased label once, copy every character that is not
    whitespace, and put one hyphen for each maximal run of
    whitespace. *)
Fixpoint hyphenate (in_run : bool) (s : string) : string :=
  match s with
  | "" => ""
  | String c s' =>
      if is_space c then
        if in_run then hyphenate true s' else String "-" (hyphenate true s')
      else String c (hyphenate false s')
  end.

Definition inputId_spec (label : string) : string :=
  "field-" ++ hyphenate false (toLowerCase label).

End FormField.

(* ===================================================================== *)
(** ** LoginForm.vue (the validated variant)                              *)
(* ===================================================================== *)

Module LoginForm.
Import Js Chars Regex.

(** *** Component data *)

Record Data : Type := mkData {
  username : string;
  password : string;
  error : string;
  isLoading : bool
}.

Definition set_error (e : string) (d : Data) : Data :=
  mkData (username d) (password d) e (isLoading d).

Definition set_isLoading (b : bool) (d : Data) : Data :=
  mkData (username d) (password d) (error d) b.

(** The two keys [validateField] is called with. *)
Inductive Field : Type := f_username | f_password.

Definition field_name (f : Field) : string :=
  match f with
  | f_username => "username"
  | f_password => "password"
  end.

(** [this[field]] *)
Definition field_value (d : Data) (f : Field) : string :=
  match f with
  | f_username => username d
  | f_password => password d
  end.

(** An absent rule property is [None] (undefined in the source). *)
Record Rules : Type := mkRules {
  required : bool;
  minLength : option nat;
  pattern : option Regex;
  message : option string
}.

(** [/^(?=.*[A-Za-z])(?=.*\d)[A-Za-z\d]{8,}$/] *)
Definition password_pattern : Regex :=
  RBol
    (RLook (RStar ADot (RAtom (AClass [CRange "A" "Z"; CRange "a" "z"]) RDone))
       (RLook (RStar ADot (RAtom (AClass [CDigit]) RDone))
          (RAtLeast 8 (AClass [CRange "A" "Z"; CRange "a" "z"; CDigit])
             (REol RDone)))).

Definition password_message : string :=
  "Password must be at least 8 characters and include letters and numbers".

Definition validationRules (f : Field) : Rules :=
  match f with
  | f_username => mkRules true (Some 3) None None
  | f_password => mkRules true None (Some password_pattern) (Some password_message)
  end.

(** [field.charAt(0).toUpperCase() + field.slice(1)] *)
Definition capitalize (field : string) : string :=
  toUpperCase (charAt0 field) ++ slice1 field.

(** Number-to-string conversion inside a template literal. *)
Definition number_to_string (n : nat) : string :=
  NilZero.string_of_uint (Nat.to_uint n).

(** [rules.minLength && value.length < rules.minLength]: an absent or
    zero bound is falsy. *)
Definition below_minLength (rules : Rules) (value : string) : bool :=
  match minLength rules with
  | Some n => negb (Nat.eqb n 0) && Nat.ltb (String.length value) n
  | None => false
  end.

Definition show_minLength (rules : Rules) : string :=
  match minLength rules with
  | Some n => number_to_string n
  | None => "undefined"
  end.

(** [rules.pattern && !value.match(rules.pattern)] *)
Definition pattern_mismatch (rules : Rules) (value : string) : bool :=
  match pattern rules with
  | Some r => negb (matches value r)
  | None => false
  end.

(** [validateField(field)].  An absent [message] would be returned as
    undefined; every reader of the result only tests it for truthiness
    or shows it, so it is rendered as the (equally falsy) empty
    string. *)
Definition validateField (d : Data) (f : Field) : string :=
  let rules := validationRules f in
  let value := field_value d f in
  if required rules && negb (truthy (JStr value)) then
    capitalize (field_name f) ++ " is required"
  else if below_minLength rules value then
    capitalize (field_name f) ++ " must be at least "
      ++ show_minLength rules ++ " characters"
  else if pattern_mismatch rules value then
    default "" (message rules)
  else "".

(** Truthiness of the computed property
    [isValid() { return this.username.length >= 3 &&
                        this.password.match(this.validationRules.password.pattern); }];
    [match(undefined)] would match the empty pattern. *)
Definition isValid (d : Data) : bool :=
  Nat.leb 3 (String.length (username d))
  && match pattern (validationRules f_password) with
     | Some r => matches (password d) r
     | None => true
     end.

(** *** Effects

    A method runs on a world: the component data and the log of the
    calls it made to its collaborators (axios, the store, the parent),
    oldest first.  It completes normally or by throwing.  The store
    and the parent are taken to return normally from [commit] and
    [$emit]. *)

Inductive Effect : Type :=
| Post (url : string) (body config : JsVal)     (* axios.post(url, body, config) *)
| Commit (type : string) (payload : JsVal)      (* this.$store.commit(type, payload) *)
| Emit (event : string) (arg : JsVal).          (* this.$emit(event, arg) *)

Record World : Type := mkWorld { this : Data; log : list Effect }.

Inductive Completion (A : Type) : Type :=
| Normal (a : A)
| Throw (exn : JsVal).
Arguments Normal {A} a.
Arguments Throw {A} exn.

Definition M (A : Type) : Type := World -> Completion A * World.

Definition ret {A} (a : A) : M A := fun w => (Normal a, w).

Definition bind {A B} (m : M A) (k : A -> M B) : M B :=
  fun w =>
    match m w with
    | (Normal a, w') => k a w'
    | (Throw e, w') => (Throw e, w')
    end.

Definition throw {A} (e : JsVal) : M A := fun w => (Throw e, w).

(** [try { body } catch (e) { handler e }] *)
Definition try_catch {A} (body : M A) (handler : JsVal -> M A) : M A :=
  fun w =>
    match body w with
    | (Normal a, w') => (Normal a, w')
    | (Throw e, w') => handler e w'
    end.

(** [try { body } finally { cleanup }]: the cleanup runs on every
    completion of the body, which is then resumed. *)
Definition try_finally {A} (body : M A) (cleanup : M unit) : M A :=
  fun w =>
    match body w with
    | (c, w') =>
        match cleanup w' with
        | (Normal _, w'') => (c, w'')
        | (Throw e, w'') => (Throw e, w'')
        end
    end.

Declare Scope js_scope.
Delimit Scope js_scope with js.
Notation "x <- m ;; k" := (bind m (fun x => k))
  (at level 100, m at next level, right associativity) : js_scope.
Notation "m ;; k" := (bind m (fun _ => k))
  (at level 100, right associativity) : js_scope.

Definition assign (f : Data -> Data) : M unit :=
  fun w => (Normal tt, mkWorld (f (this w)) (log w)).

Definition read : M Data := fun w => (Normal (this w), w).

Definition perform (e : Effect) : M unit :=
  fun w => (Normal tt, mkWorld (this w) (log w ++ [e])).

(** [v.k] as a statement: a TypeError on null and undefined. *)
Definition prop (v : JsVal) (k : string) : M JsVal :=
  if nullish v then throw TypeError else ret (get v k).

(** *** The page and the network *)

Inductive Settled : Type :=
| Fulfilled (value : JsVal)
| Rejected (reason : JsVal).

(** What a submission finds around it: the [content] of the
    [meta[name="csrf-token"]] element ([None] when the page has no such
    element, so that [querySelector] returns null), and how the promise
    of each [axios.post] call settles. *)
Record Env : Type := mkEnv {
  csrf_meta : option string;
  axios_post : string -> JsVal -> JsVal -> Settled
}.

(** [document.querySelector('meta[name="csrf-token"]').content] *)
Definition csrf_content (env : Env) : M JsVal :=
  match csrf_meta env with
  | Some c => ret (JStr c)
  | None => throw TypeError
  end.

(** [await axios.post(url, body, config)] *)
Definition await_post (env : Env) (url : string) (body config : JsVal)
    : M JsVal :=
  (perform (Post url body config) ;;
   match axios_post env url body config with
   | Fulfilled response => ret response
   | Rejected reason => throw reason
   end)%js.

(** [{ username: this.username, password: this.password }] *)
Definition request_body (d : Data) : JsVal :=
  JObj {[ "username" := JStr (username d);
          "password" := JStr (password d) ]}.

(** [{ headers: { 'X-CSRF-TOKEN': token } }] *)
Definition request_config (token : JsVal) : JsVal :=
  JObj {[ "headers" := JObj {[ "X-CSRF-TOKEN" := token ]} ]}.

Arguments request_body : simpl never.
Arguments request_config : simpl never.

(** *** Methods *)

Definition validateForm : M bool :=
  (d <- read ;;
   let usernameError := validateField d f_username in
   let passwordError := validateField d f_password in
   if truthy (JStr (str_or usernameError passwordError)) then
     assign (set_error (str_or usernameError passwordError)) ;;
     ret false
   else
     assign (set_error "") ;;
     ret true)%js.

(** The ternary chain of the catch block.  [||] binds tighter than
    [?:], so the first condition is
    [(message || status === 401)]. *)
Definition catch_message (error : JsVal) : M string :=
  (response <- prop error "response" ;;
   let message := opt_chain (opt_chain response "data") "message" in
   let status := opt_chain response "status" in
   ret (if truthy (or message (JBool (strict_eq_num status 401)))
        then "Invalid username or password"
        else if strict_eq_num status 429
        then "Too many attempts. Please try again later"
        else "Authentication failed. Please try again."))%js.

Definition handleSubmit (env : Env) : M unit :=
  (valid <- validateForm ;;
   if negb valid then ret tt
   else
     assign (set_isLoading true) ;;
     try_finally
       (try_catch
          (d <- read ;;
           let body := request_body d in
           token <- csrf_content env ;;
           let config := request_config token in
           response <- await_post env "/api/login" body config ;;
           data <- prop response "data" ;;
           success <- prop data "success" ;;
           if truthy success then
             user <- prop data "user" ;;
             perform (Commit "setUser" user) ;;
             perform (Emit "success" (JStr "Login successful!"))
           else ret tt)
          (fun error =>
             m <- catch_message error ;;
             assign (set_error m)))
       (assign (set_isLoading false)))%js.

(** *** Observations on a run *)

(** A submission of the form in state [d]. *)
Definition submit (env : Env) (d : Data) : Completion unit * World :=
  handleSubmit env (mkWorld d []).

Definition after (env : Env) (d : Data) : Data := this (snd (submit env d)).

Definition effects (env : Env) (d : Data) : list Effect :=
  log (snd (submit env d)).

Definition is_post (e : Effect) : bool :=
  match e with Post _ _ _ => true | _ => false end.

Definition commits (l : list Effect) : list (string * JsVal) :=
  flat_map (fun e => match e with Commit t p => [(t, p)] | _ => [] end) l.

Definition emits (l : list Effect) : list (string * JsVal) :=
  flat_map (fun e => match e with Emit ev a => [(ev, a)] | _ => [] end) l.

(** *** The life of the form

    [data()] gives the initial state, [v-model] writes a field on each
    [update:modelValue] of its FormField, and a submit event runs
    [handleSubmit].  Submissions do not overlap: while one is pending
    the fields and the button are disabled. *)

Definition initial : Data := mkData "" "" "" false.

Inductive Event : Type :=
| UpdateUsername (value : string)
| UpdatePassword (value : string)
| SubmitForm (env : Env).

Definition step (d : Data) (e : Event) : Data :=
  match e with
  | UpdateUsername value => mkData value (password d) (error d) (isLoading d)
  | UpdatePassword value => mkData (username d) value (error d) (isLoading d)
  | SubmitForm env => after env d
  end.

Definition run (events : list Event) : Data := fold_left step events initial.

(** *** axios

    axios is an external library.  With its default [validateStatus]
    the promise is fulfilled with the response for a status from 200
    to 299, and rejected with an error that carries the response
    otherwise; without any response it is rejected with an error that
    carries none. *)

Inductive Answer : Type :=
| NoResponse
| Response (status : Z) (data : JsVal).

Definition response_object (status : Z) (data : JsVal) : JsVal :=
  JObj {[ "status" := JNum status; "data" := data ]}.

Definition axios_settle (a : Answer) : Settled :=
  match a with
  | NoResponse => Rejected (JObj {[ "message" := JStr "Network Error" ]})
  | Response status data =>
      if (200 <=? status)%Z && (status <? 300)%Z
      then Fulfilled (response_object status data)
      else Rejected (JObj {[ "message" := JStr "Request failed";
                             "response" := response_object status data ]})
  end.

(** A page with a token, on which every request meets answer [a]. *)
Definition answering (a : Answer) : Env :=
  mkEnv (Some "token") (fun _ _ _ => axios_settle a).

End LoginForm.

(* ===================================================================== *)
(** ** Vocabulary of the statements                                       *)
(* ===================================================================== *)

Module Props.
Import Js Chars Regex LoginForm.

Fixpoint all_chars (p : ascii -> bool) (s : string) : bool :=
  match s with
  | "" => true
  | String c s' => p c && all_chars p s'
  end.

Fixpoint some_char (p : ascii -> bool) (s : string) : bool :=
  match s with
  | "" => false
  | String c s' => p c || some_char p s'
  end.

Definition is_letter (c : ascii) : bool :=
  in_range "A" "Z" c || in_range "a" "z" c.

Definition is_alnum (c : ascii) : bool := is_letter c || is_digit c.

(** Some character satisfying [p] can be reached from the start
    without crossing a line terminator: what [(?=.*[p])] tests. *)
Fixpoint reach (p : ascii -> bool) (s : string) : bool :=
  match s with
  | "" => false
  | String c s' => p c || (negb (is_line_terminator c) && reach p s')
  end.

(** The leading run of characters satisfying [p]: its length and what
    follows it. *)
Fixpoint span_len (p : ascii -> bool) (s : string) : nat :=
  match s with
  | "" => 0
  | String c s' => if p c then S (span_len p s') else 0
  end.

Fixpoint span_drop (p : ascii -> bool) (s : string) : string :=
  match s with
  | "" => ""
  | String c s' => if p c then span_drop p s' else s
  end.

(** Both field rules hold. *)
Definition passes_validation (d : Data) : Prop :=
  validateField d f_username = "" /\ validateField d f_password = "".

(** The submission of [d] gets as far as the request, and the promise
    of that request settles as [s]. *)
Definition answered (env : Env) (d : Data) (s : Settled) : Prop :=
  passes_validation d /\
  exists token,
    csrf_meta env = Some token /\
    axios_post env "/api/login" (request_body d)
      (request_config (JStr token)) = s.

(** The message carried by the body of the response of a rejection:
    [error.response?.data?.message]. *)
Definition body_message (reason : JsVal) : JsVal :=
  opt_chain (opt_chain (get reason "response") "data") "message".

(** [error.response?.status] *)
Definition response_status (reason : JsVal) : JsVal :=
  opt_chain (get reason "response") "status".

Definition generic_message : string :=
  "Authentication failed. Please try again.".

(** Credentials that pass both rules, used in the concrete runs. *)
Definition bob : Data := mkData "bob" "abcdefg1" "" false.

End Props.

(* ===================================================================== *)
(** ** FormField.vue: the rest of the widget                              *)
(* ===================================================================== *)

Module FieldWidget.
Import Js Chars Regex.

(** The props of FormField.vue; [autocomplete] defaults to undefined. *)
Record FieldProps : Type := mkProps {
  modelValue : string;
  label : string;
  type : string;
  error : string;
  disabled : bool;
  autocomplete : option string
}.

Definition inputId (p : FieldProps) : string := FormField.inputId (label p).

(** [hasError() { return Boolean(this.error); }] *)
Definition hasError (p : FieldProps) : bool := truthy (JStr (error p)).

(** [updateValue(event) { this.$emit('update:modelValue', event.target.value); }] *)
Definition updateValue (target_value : string) : LoginForm.Effect :=
  LoginForm.Emit "update:modelValue" (JStr target_value).

(** What the template binds: the label's [for], the attributes of the
    input, and the error paragraph ([v-if="hasError"]) with its id and
    text. *)
Record FieldView : Type := mkView {
  label_for : string;
  label_text : string;
  input_id : string;
  input_type : string;
  input_value : string;
  input_disabled : bool;
  input_autocomplete : option string;
  aria_invalid : bool;
  aria_describedby : option string;
  error_paragraph : option (string * string)
}.

Definition render (p : FieldProps) : FieldView :=
  mkView
    (inputId p)
    (label p)
    (inputId p)
    (type p)
    (modelValue p)
    (disabled p)
    (autocomplete p)
    (hasError p)
    (if hasError p then Some (inputId p ++ "-error") else None)
    (if hasError p then Some (inputId p ++ "-error", error p) else None).

End FieldWidget.

Module Scan.
Import Chars.


End Scan.

(* ===================================================================== *)
(** ** LoginForm.vue (the validated variant): the template                *)
(* ===================================================================== *)

Module LoginFormView.
Import Js LoginForm FieldWidget.

(** The two FormField instances of the template. *)
Definition username_field (d : Data) : FieldProps :=
  mkProps (username d) "Username" "text" (validateField d f_username)
    (isLoading d) (Some "username").

Definition password_field (d : Data) : FieldProps :=
  mkProps (password d) "Password" "password" (validateField d f_password)
    (isLoading d) (Some "current-password").

(** [<div v-if="error" role="alert">{{ error }}</div>] *)
Definition alert (d : Data) : option string :=
  if truthy (JStr (LoginForm.error d)) then Some (LoginForm.error d) else None.

(** [:disabled="isLoading || !isValid"] *)
Definition button_disabled (d : Data) : bool :=
  isLoading d || negb (isValid d).

(** [v-model]: an [update:modelValue] of a field writes the bound data
    property. *)
Definition on_update (f : Field) (e : Effect) (d : Data) : Data :=
  match e with
  | Emit "update:modelValue" (JStr value) =>
      match f with
      | f_username => mkData value (password d) (LoginForm.error d) (isLoading d)
      | f_password => mkData (username d) value (LoginForm.error d) (isLoading d)
      end
  | _ => d
  end.

End LoginFormView.

(* ===================================================================== *)
(** ** Methods over any component data                                    *)
(* ===================================================================== *)

(** The other two variants of the login form keep different data; their
    methods run in the same way as those of the validated variant, on a
    world whose component data is a parameter. *)

Module Method.
Import Js.
Import LoginForm (Effect, Post, Commit, Emit, Completion, Normal, Throw,
                  Settled, Fulfilled, Rejected, Env, csrf_meta, axios_post).

Section WithData.

Context {D : Type}.

Definition World : Type := D * list Effect.

Definition M (A : Type) : Type := World -> Completion A * World.

Definition ret {A} (a : A) : M A := fun w => (Normal a, w).

Definition bind {A B} (m : M A) (k : A -> M B) : M B :=
  fun w =>
    match m w with
    | (Normal a, w') => k a w'
    | (Throw e, w') => (Throw e, w')
    end.

Definition throw {A} (e : JsVal) : M A := fun w => (Throw e, w).

Definition try_catch {A} (body : M A) (handler : JsVal -> M A) : M A :=
  fun w =>
    match body w with
    | (Normal a, w') => (Normal a, w')
    | (Throw e, w') => handler e w'
    end.

Definition try_finally {A} (body : M A) (cleanup : M unit) : M A :=
  fun w =>
    match body w with
    | (c, w') =>
        match cleanup w' with
        | (Normal _, w'') => (c, w'')
        | (Throw e, w'') => (Throw e, w'')
        end
    end.

Definition assign (f : D -> D) : M unit :=
  fun w => (Normal tt, (f (fst w), snd w)).

Definition read : M D := fun w => (Normal (fst w), w).

Definition perform (e : Effect) : M unit :=
  fun w => (Normal tt, (fst w, (snd w ++ [e])%list)).

Definition prop (v : JsVal) (k : string) : M JsVal :=
  if nullish v then throw TypeError else ret (get v k).

Definition csrf_content (env : Env) : M JsVal :=
  match csrf_meta env with
  | Some c => ret (JStr c)
  | None => throw TypeError
  end.

(** [await axios.post(url, body, config)]; a call with two arguments
    has an undefined [config]. *)
Definition await_post (env : Env) (url : string) (body config : JsVal)
    : M JsVal :=
  bind (perform (Post url body config))
    (fun _ =>
       match axios_post env url body config with
       | Fulfilled response => ret response
       | Rejected reason => throw reason
       end).

(** [if (response.data.success) { this.$store.commit("setUser",
    response.data.user); this.$emit("success", "Login successful!"); }],
    which the three variants share. *)
Definition on_response (response : JsVal) : M unit :=
  bind (prop response "data") (fun data =>
  bind (prop data "success") (fun success =>
  if truthy success then
    bind (prop data "user") (fun user =>
    bind (perform (Commit "setUser" user)) (fun _ =>
    perform (Emit "success" (JStr "Login successful!"))))
  else ret tt)).

End WithData.

Declare Scope method_scope.
Delimit Scope method_scope with method.
Notation "x <- m ;; k" := (bind m (fun x => k))
  (at level 100, m at next level, right associativity) : method_scope.
Notation "m ;; k" := (bind m (fun _ => k))
  (at level 100, right associativity) : method_scope.

(** [{ username: ..., password: ... }] *)
Definition credentials (username password : string) : JsVal :=
  JObj {[ "username" := JStr username; "password" := JStr password ]}.

Arguments credentials : simpl never.

End Method.

(* ===================================================================== *)
(** ** LoginForm.vue, the variant without field rules                     *)
(* ===================================================================== *)

(** The first component of LoginForm.vue: a token header and a loading
    flag, one check for empty fields, and a catch block that shows the
    message of the response body. *)

Module BasicForm.
Import Js Method.
Import LoginForm (Effect, Post, Commit, Emit, Completion, Normal, Throw,
                  Settled, Fulfilled, Rejected, Env, csrf_meta, axios_post,
                  request_config).

(** [error] starts as the empty string and may receive whatever the
    response body holds under [message]. *)
Record Data : Type := mkData {
  username : string;
  password : string;
  error : JsVal;
  isLoading : bool
}.

Definition initial : Data := mkData "" "" (JStr "") false.

Definition set_error (e : JsVal) (d : Data) : Data :=
  mkData (username d) (password d) e (isLoading d).

Definition set_isLoading (b : bool) (d : Data) : Data :=
  mkData (username d) (password d) (error d) b.

Definition validateForm : M bool :=
  (d <- read ;;
   if negb (truthy (JStr (username d))) || negb (truthy (JStr (password d)))
   then
     assign (set_error (JStr "Please fill in all fields")) ;;
     ret false
   else ret true)%method.

Definition handleSubmit (env : Env) : M unit :=
  (valid <- validateForm ;;
   if negb valid then ret tt
   else
     assign (set_isLoading true) ;;
     try_finally
       (try_catch
          (d <- read ;;
           let body := credentials (username d) (password d) in
           token <- csrf_content env ;;
           let config := request_config token in
           response <- await_post env "/api/login" body config ;;
           on_response response)
          (fun error =>
             response <- prop error "response" ;;
             let message := opt_chain (opt_chain response "data") "message" in
             assign (set_error
                       (or message
                           (JStr "Authentication failed. Please try again.")))))
       (assign (set_isLoading false)))%method.

Definition submit (env : Env) (d : Data) : Completion unit * (Data * list Effect) :=
  handleSubmit env (d, []).

Definition after (env : Env) (d : Data) : Data := fst (snd (submit env d)).

Definition effects (env : Env) (d : Data) : list Effect :=
  snd (snd (submit env d)).

End BasicForm.

(* ===================================================================== *)
(** ** The minimal login form                                             *)
(* ===================================================================== *)

(** The smallest variant: no validation, no token, no loading flag, one
    message for every failure. *)

Module MinimalForm.
Import Js Method.
Import LoginForm (Effect, Post, Commit, Emit, Completion, Normal, Throw,
                  Settled, Fulfilled, Rejected, Env, csrf_meta, axios_post).

Record Data : Type := mkData {
  username : string;
  password : string;
  error : string
}.

Definition set_error (e : string) (d : Data) : Data :=
  mkData (username d) (password d) e.

Definition handleSubmit (env : Env) : M unit :=
  (try_catch
     (d <- read ;;
      response <- await_post env "/api/login"
                    (credentials (username d) (password d)) JUndefined ;;
      on_response response)
     (fun error =>
        assign (set_error "Something went wrong. Please try again.")))%method.

Definition submit (env : Env) (d : Data) : Completion unit * (Data * list Effect) :=
  handleSubmit env (d, []).

Definition after (env : Env) (d : Data) : Data := fst (snd (submit env d)).

Definition effects (env : Env) (d : Data) : list Effect :=
  snd (snd (submit env d)).

End MinimalForm.

Import Js Chars Regex FormField LoginForm Props.
Import Scan.

(* ===================================================================== *)
(** ** Concrete runs                                                      *)
(* ===================================================================== *)

Example replace_with_empty_matches :
  replace_all "abc" (RStar (AClass [CRange "b" "b"]) RDone) "-" = "-a--c-".
Proof. reflexivity. Qed.

Example replace_outer_whitespace :
  inputId "  Postal   Code " = "field--postal-code-".
Proof. reflexivity. Qed.

Example pattern_accepts :
  matches "abcdefg1" password_pattern = true
  /\ matches "1234567z" password_pattern = true.
Proof. split; reflexivity. Qed.

Example pattern_rejects :
  matches "abcdefgh" password_pattern = false
  /\ matches "12345678" password_pattern = false
  /\ matches "abcdef1" password_pattern = false
  /\ matches "abcdefg1!" password_pattern = false
  /\ matches " abcdefg1" password_pattern = false.
Proof. repeat split; reflexivity. Qed.

Example validateField_runs :
  validateField (mkData "" "x" "" false) f_username = "Username is required"
  /\ validateField (mkData "ab" "x" "" false) f_username
     = "Username must be at least 3 characters"
  /\ validateField (mkData "abc" "x" "" false) f_username = ""
  /\ validateField (mkData "abc" "x" "" false) f_password = password_message.
Proof. repeat split; reflexivity. Qed.

Example submit_without_token_element :
  submit (mkEnv None (fun _ _ _ => axios_settle NoResponse)) bob
  = (Normal tt, mkWorld (mkData "bob" "abcdefg1" generic_message false) []).
Proof. reflexivity. Qed.

Example submit_rejected_with_nothing :
  fst (submit (mkEnv (Some "t") (fun _ _ _ => Rejected JUndefined)) bob)
    = Throw TypeError
  /\ isLoading (after (mkEnv (Some "t") (fun _ _ _ => Rejected JUndefined)) bob)
     = false.
Proof. split; reflexivity. Qed.

(* ===================================================================== *)
(** ** The regular expressions                                            *)
(* ===================================================================== *)

Section RegexFacts.

Lemma rmatch_rep a lo hi rest i s :
  rmatch (RRep a lo hi rest) i s = rep_greedy a lo hi (rmatch rest) 0 i s.
Proof. reflexivity. Qed.

Lemma rmatch_atom a i s :
  rmatch (RAtom a RDone) i s =
  match s with
  | "" => None
  | String c s' => if atom_matches a c then Some s' else None
  end.
Proof.
  destruct s as [|c s']; [reflexivity|].
  unfold RAtom. simpl. destruct (atom_matches a c); simpl; [|reflexivity].
  destruct s' as [|c' s'']; simpl; [reflexivity|].
  now rewrite andb_false_r.
Qed.

(** [.*] followed by one atom: a match exists exactly when the atom is
    reachable. *)
Lemma rmatch_star_dot a s : forall n i,
  is_Some (rep_greedy ADot 0 None (rmatch (RAtom a RDone)) n i s)
  <-> reach (atom_matches a) s = true.
Proof.
  induction s as [|c s' IH]; intros n i.
  - simpl. split; [intros [x Hx]; discriminate | discriminate].
  - cbn [rep_greedy reach]. rewrite rmatch_atom.
    cbn [Nat.leb below atom_matches]. rewrite andb_true_r.
    destruct (negb (is_line_terminator c)) eqn:Hlt.
    + specialize (IH (S n) (S i)).
      destruct (rep_greedy ADot 0 None (rmatch (RAtom a RDone)) (S n) (S i) s') eqn:Hr.
      * split; [intros _|eauto].
        rewrite (proj1 IH); [apply orb_true_r | eauto].
      * destruct (atom_matches a c); simpl.
        -- split; eauto.
        -- rewrite <- IH. split; intros [x Hx]; discriminate.
    + rewrite andb_false_l, orb_false_r.
      destruct (atom_matches a c); split; eauto; try discriminate.
      intros [x Hx]; discriminate.
Qed.

(** A class repeated at least [lo] times up to the end of the input. *)
Lemma rmatch_rep_to_end a lo s : forall n i,
  rep_greedy a lo None (rmatch (REol RDone)) n i s =
  if all_chars (atom_matches a) s && Nat.leb lo (n + String.length s)
  then Some "" else None.
Proof.
  induction s as [|c s' IH]; intros n i.
  - simpl. rewrite Nat.add_0_r. now destruct (Nat.leb lo n).
  - cbn [rep_greedy all_chars String.length below]. rewrite andb_true_r.
    destruct (atom_matches a c); simpl.
    + rewrite IH. replace (n + S (String.length s')) with (S n + String.length s') by lia.
      destruct (all_chars (atom_matches a) s' && Nat.leb lo (S n + String.length s')); [reflexivity|].
      now destruct (Nat.leb lo n).
    + now destruct (Nat.leb lo n).
Qed.

(** A greedy repetition at the end of a pattern takes the whole leading
    run. *)
Lemma rmatch_rep_span a lo s : forall n i,
  rep_greedy a lo None (rmatch RDone) n i s =
  if Nat.leb lo (n + span_len (atom_matches a) s)
  then Some (span_drop (atom_matches a) s) else None.
Proof.
  induction s as [|c s' IH]; intros n i.
  - simpl. now rewrite Nat.add_0_r.
  - cbn [rep_greedy span_len span_drop below]. rewrite andb_true_r.
    destruct (atom_matches a c).
    + rewrite IH. replace (n + S (span_len (atom_matches a) s')) with (S n + span_len (atom_matches a) s') by lia.
      destruct (Nat.leb lo (S n + span_len (atom_matches a) s')) eqn:E; [reflexivity|].
      simpl. destruct (Nat.leb lo n) eqn:E'; [|reflexivity].
      apply Nat.leb_le in E'. apply Nat.leb_gt in E. lia.
    + now rewrite Nat.add_0_r.
Qed.

Lemma span_len_drop p s :
  String.length s - String.length (span_drop p s) = span_len p s.
Proof.
  assert (H : String.length s = span_len p s + String.length (span_drop p s)).
  { induction s as [|c s' IH]; [reflexivity|]. simpl.
    destruct (p c); simpl; [now rewrite IH | reflexivity]. }
  lia.
Qed.

(** A pattern that begins with [^] matches at index 0 or nowhere. *)
Lemma search_bol r s : forall i, search (RBol r) (S i) s = None.
Proof.
  induction s as [|c s' IH]; intros i; simpl; [reflexivity | apply IH].
Qed.

Lemma matches_bol r s :
  matches s (RBol r) = match rmatch r 0 s with Some _ => true | None => false end.
Proof.
  unfold matches. destruct s as [|c s']; simpl.
  - now destruct (rmatch r 0 "").
  - destruct (rmatch r 0 (String c s')); [reflexivity|]. now rewrite search_bol.
Qed.

End RegexFacts.

(* ===================================================================== *)
(** ** Validation                                                         *)
(* ===================================================================== *)

Section ValidationFacts.

Lemma atom_letter c :
  atom_matches (AClass [CRange "A" "Z"; CRange "a" "z"]) c = is_letter c.
Proof. unfold is_letter. simpl. now rewrite orb_false_r. Qed.

Lemma atom_digit c : atom_matches (AClass [CDigit]) c = is_digit c.
Proof. simpl. now rewrite orb_false_r. Qed.

Lemma atom_alnum c :
  atom_matches (AClass [CRange "A" "Z"; CRange "a" "z"; CDigit]) c = is_alnum c.
Proof.
  unfold is_alnum, is_letter. simpl. rewrite orb_false_r. now rewrite orb_assoc.
Qed.

Lemma alnum_not_line_terminator c :
  is_alnum c = true -> is_line_terminator c = false.
Proof.
  destruct c as [[] [] [] [] [] [] [] []]; vm_compute; congruence.
Qed.

Lemma reach_ext p q s :
  (forall c, p c = q c) -> reach p s = reach q s.
Proof.
  intros H. induction s as [|c s' IH]; simpl; [reflexivity|]. now rewrite H, IH.
Qed.

Lemma all_chars_ext p q s :
  (forall c, p c = q c) -> all_chars p s = all_chars q s.
Proof.
  intros H. induction s as [|c s' IH]; simpl; [reflexivity|]. now rewrite H, IH.
Qed.

(** Inside an alphanumeric string nothing stops [.*]. *)
Lemma reach_alnum p s :
  all_chars is_alnum s = true -> reach p s = some_char p s.
Proof.
  induction s as [|c s' IH]; simpl; [reflexivity|].
  intros H. apply andb_true_iff in H as [Hc Hs].
  rewrite (alnum_not_line_terminator c Hc), IH by assumption. reflexivity.
Qed.

(** What the configured pattern accepts: at least 8 characters, all of
    them letters or digits, with a letter and a digit among them. *)
Lemma password_pattern_spec p :
  matches p password_pattern =
  Nat.leb 8 (String.length p) && all_chars is_alnum p
  && some_char is_letter p && some_char is_digit p.
Proof.
  unfold password_pattern. rewrite matches_bol.
  cbn [rmatch]. unfold RStar, RAtLeast. rewrite !rmatch_rep.
  rewrite rmatch_rep_to_end. simpl Nat.add.
  rewrite (all_chars_ext _ is_alnum) by apply atom_alnum.
  pose proof (rmatch_star_dot (AClass [CRange "A" "Z"; CRange "a" "z"]) p 0 0) as HL.
  pose proof (rmatch_star_dot (AClass [CDigit]) p 0 0) as HD.
  rewrite (reach_ext _ is_letter) in HL by apply atom_letter.
  rewrite (reach_ext _ is_digit) in HD by apply atom_digit.
  destruct (all_chars is_alnum p) eqn:Ha.
  - rewrite (reach_alnum _ _ Ha) in HL. rewrite (reach_alnum _ _ Ha) in HD.
    destruct (rep_greedy ADot 0 None _ 0 0 p) eqn:E1.
    + rewrite (proj1 HL) by eauto.
      destruct (rep_greedy ADot 0 None (rmatch (RAtom (AClass [CDigit]) RDone)) 0 0 p) eqn:E2.
      * rewrite (proj1 HD) by eauto.
        now destruct (Nat.leb 8 (String.length p)).
      * destruct (some_char is_digit p); [|now rewrite andb_false_r].
        destruct (proj2 HD eq_refl); discriminate.
    + destruct (some_char is_letter p); [|now rewrite andb_false_r].
      destruct (proj2 HL eq_refl); discriminate.
  - rewrite andb_false_r. simpl.
    destruct (rep_greedy ADot 0 None _ 0 0 p); [|reflexivity].
    now destruct (rep_greedy ADot 0 None _ 0 0 p).
Qed.

Lemma validateField_username d :
  validateField d f_username =
  match username d with
  | "" => "Username is required"
  | _ => if Nat.ltb (String.length (username d)) 3
         then "Username must be at least 3 characters"
         else ""
  end.
Proof.
  unfold validateField. simpl. destruct (username d); simpl; [reflexivity|].
  unfold below_minLength. simpl minLength. cbv iota.
  change (String.length (String a s)) with (S (String.length s)).
  destruct (Nat.ltb (S (String.length s)) 3); reflexivity.
Qed.

Lemma validateField_password d :
  validateField d f_password =
  match password d with
  | "" => "Password is required"
  | _ => if matches (password d) password_pattern then "" else password_message
  end.
Proof.
  unfold validateField. simpl. destruct (password d); simpl; [reflexivity|].
  unfold pattern_mismatch. simpl.
  now destruct (matches (String a s) password_pattern).
Qed.

Lemma username_valid_iff d :
  validateField d f_username = "" <-> 3 <= String.length (username d).
Proof.
  rewrite validateField_username. destruct (username d) as [|c u]; simpl String.length.
  - split; [discriminate | lia].
  - destruct (Nat.ltb (S (String.length u)) 3) eqn:E.
    + apply Nat.ltb_lt in E. split; [discriminate | lia].
    + apply Nat.ltb_ge in E. split; [intros _; exact E | reflexivity].
Qed.

Lemma password_valid_iff d :
  validateField d f_password = "" <-> matches (password d) password_pattern = true.
Proof.
  rewrite validateField_password. destruct (password d) as [|c p].
  - split; [discriminate|]. rewrite password_pattern_spec. discriminate.
  - destruct (matches (String c p) password_pattern);
      split; try reflexivity; discriminate.
Qed.

Lemma validateForm_run d l :
  validateForm (mkWorld d l) =
  match validateField d f_username, validateField d f_password with
  | "", "" => (Normal true, mkWorld (set_error "" d) l)
  | "", p => (Normal false, mkWorld (set_error p d) l)
  | u, _ => (Normal false, mkWorld (set_error u d) l)
  end.
Proof.
  unfold validateForm, bind, read, str_or. simpl.
  destruct (validateField d f_username); simpl; [|reflexivity].
  destruct (validateField d f_password); reflexivity.
Qed.

End ValidationFacts.

(* ===================================================================== *)
(** ** Runs of handleSubmit                                               *)
(* ===================================================================== *)

Section SubmitFacts.

Variable env : Env.
Variable d : Data.

(** A failing rule ends the submission before anything else happens. *)
Lemma submit_invalid :
  ~ passes_validation d ->
  submit env d =
  (Normal tt,
   mkWorld (set_error (match validateField d f_username with
                       | "" => validateField d f_password
                       | u => u
                       end) d) []).
Proof.
  intros Hn. unfold submit, handleSubmit, bind. rewrite validateForm_run.
  destruct (validateField d f_username) eqn:Hu.
  - destruct (validateField d f_password) eqn:Hp; [|reflexivity].
    exfalso. apply Hn. now split.
  - reflexivity.
Qed.

(** Without the token element the request is never made. *)
Lemma submit_no_token :
  passes_validation d -> csrf_meta env = None ->
  submit env d =
  (Normal tt, mkWorld (mkData (username d) (password d) generic_message false) []).
Proof.
  intros [Hu Hp] Ht. unfold submit, handleSubmit, bind. rewrite validateForm_run, Hu, Hp.
  unfold try_finally, try_catch, bind, csrf_content. simpl. rewrite Ht.
  reflexivity.
Qed.

(** The request carries the credentials as they were at submit. *)
Lemma request_body_loading e b :
  request_body (set_isLoading b (set_error e d)) = request_body d.
Proof. reflexivity. Qed.

Variable reason : JsVal.
Variable token : string.

Lemma submit_rejected :
  passes_validation d -> csrf_meta env = Some token ->
  axios_post env "/api/login" (request_body d) (request_config (JStr token))
    = Rejected reason ->
  nullish reason = false ->
  submit env d =
  (Normal tt,
   mkWorld
     (mkData (username d) (password d)
        (if truthy (or (body_message reason)
                       (JBool (strict_eq_num (response_status reason) 401)))
         then "Invalid username or password"
         else if strict_eq_num (response_status reason) 429
         then "Too many attempts. Please try again later"
         else generic_message)
        false)
     [Post "/api/login" (request_body d) (request_config (JStr token))]).
Proof.
  intros [Hu Hp] Ht Hr Hn. unfold submit, handleSubmit, bind. rewrite validateForm_run, Hu, Hp.
  unfold try_finally, try_catch, bind, csrf_content, await_post, bind. simpl.
  rewrite Ht. simpl. rewrite request_body_loading, Hr.
  unfold throw, catch_message, prop, bind. rewrite Hn. reflexivity.
Qed.

Variable response : JsVal.

(** A fulfilled request: the success branch when the body carries a
    truthy flag, nothing at all when the body lacks it, and the catch
    block when there is no body to read the flag from. *)
Lemma submit_fulfilled :
  passes_validation d -> csrf_meta env = Some token ->
  axios_post env "/api/login" (request_body d) (request_config (JStr token))
    = Fulfilled response ->
  let post := Post "/api/login" (request_body d) (request_config (JStr token)) in
  let data := get response "data" in
  submit env d =
  if nullish response || nullish data then
    (Normal tt,
     mkWorld (mkData (username d) (password d) generic_message false) [post])
  else if truthy (get data "success") then
    (Normal tt,
     mkWorld (mkData (username d) (password d) "" false)
       [post; Commit "setUser" (get data "user");
        Emit "success" (JStr "Login successful!")])
  else
    (Normal tt, mkWorld (mkData (username d) (password d) "" false) [post]).
Proof.
  intros [Hu Hp] Ht Hr. unfold submit, handleSubmit, bind.
  rewrite validateForm_run, Hu, Hp.
  unfold try_finally, try_catch, bind, csrf_content, await_post, bind. simpl.
  rewrite Ht. simpl. rewrite request_body_loading, Hr.
  unfold ret, prop. destruct (nullish response) eqn:Hn; [reflexivity|].
  simpl. destruct (nullish (get response "data")) eqn:Hd; [reflexivity|].
  unfold ret. destruct (truthy (get (get response "data") "success")); reflexivity.
Qed.

(** Whatever the guarded block does, the finally block has the last
    word on [isLoading]. *)
Lemma finally_resets (body : M unit) (w : World) :
  isLoading (this (snd (try_finally body (assign (set_isLoading false)) w)))
  = false.
Proof. unfold try_finally. destruct (body w) as [c w']. reflexivity. Qed.

Lemma submit_valid_resets :
  passes_validation d -> isLoading (after env d) = false.
Proof.
  intros [Hu Hp]. unfold after, submit, handleSubmit, bind.
  rewrite validateForm_run, Hu, Hp. simpl negb. cbv iota.
  unfold assign at 1. apply finally_resets.
Qed.

End SubmitFacts.

Lemma passes_validation_dec d : {passes_validation d} + {~ passes_validation d}.
Proof.
  unfold passes_validation.
  destruct (string_dec (validateField d f_username) "");
    destruct (string_dec (validateField d f_password) ""); tauto.
Qed.

Lemma string_length_app (a b : string) :
  String.length (a ++ b) = String.length a + String.length b.
Proof. induction a as [|c a IH]; simpl; [reflexivity | now rewrite IH]. Qed.

(* ===================================================================== *)
(** ** The failure messages of the catch block                            *)
(* ===================================================================== *)

(** Every rejection that carries a truthy body message is reported as
    "Invalid username or password": the message only takes part in the
    condition of the first ternary. *)
Lemma body_message_only_tested env d reason :
  answered env d (Rejected reason) ->
  nullish reason = false ->
  truthy (body_message reason) = true ->
  error (after env d) = "Invalid username or password".
Proof.
  intros [Hv [token [Ht Hr]]] Hn Hm. unfold after.
  rewrite (submit_rejected env d reason token Hv Ht Hr Hn). simpl.
  unfold or. now rewrite Hm, Hm.
Qed.

(** C1: the priority "body message first" fails on the code.  A 403
    rejection whose body carries the message "Account locked" leaves
    the form error at "Invalid username or password", not at the
    message. *)
Theorem body_message_is_not_shown :
  let reason_body := JObj {[ "message" := JStr "Account locked" ]} in
  let env := answering (Response 403 reason_body) in
  answered env bob (axios_settle (Response 403 reason_body))
  /\ error (after env bob) = "Invalid username or password"
  /\ error (after env bob) <> "Account locked".
Proof.
  cbv zeta. split; [|split].
  - split; [split; reflexivity|]. exists "token". split; reflexivity.
  - vm_compute. reflexivity.
  - vm_compute. discriminate.
Qed.

(** C2, as stated, fails: a 429 rejection whose body carries a message
    does not yield "Too many attempts. Please try again later". *)
Lemma status_429_with_body_message :
  let env := answering (Response 429 (JObj {[ "message" := JStr "Slow down" ]})) in
  error (after env bob) <> "Too many attempts. Please try again later".
Proof. vm_compute. discriminate. Qed.

(** C2 (amended): when the body of the response carries no message, a
    401 response sets the form error to "Invalid username or password"
    and a 429 response sets it to "Too many attempts. Please try again
    later". *)
Theorem status_messages env d reason :
  answered env d (Rejected reason) ->
  nullish reason = false ->
  truthy (body_message reason) = false ->
  (response_status reason = JNum 401 ->
   error (after env d) = "Invalid username or password")
  /\ (response_status reason = JNum 429 ->
      error (after env d) = "Too many attempts. Please try again later").
Proof.
  intros [Hv [token [Ht Hr]]] Hn Hm. unfold after.
  rewrite (submit_rejected env d reason token Hv Ht Hr Hn). simpl.
  unfold or. rewrite Hm. split; intros Hs; rewrite Hs; reflexivity.
Qed.

Lemma status_messages_witness :
  error (after (answering (Response 401 JUndefined)) bob)
    = "Invalid username or password"
  /\ error (after (answering (Response 429 (JObj ∅))) bob)
     = "Too many attempts. Please try again later".
Proof.
  split.
  - refine (proj1 (status_messages (answering (Response 401 JUndefined)) bob
                     (JObj {[ "message" := JStr "Request failed";
                              "response" := response_object 401 JUndefined ]})
                     _ _ _) _);
      try reflexivity.
    split; [split; reflexivity|]. exists "token". split; reflexivity.
  - refine (proj2 (status_messages (answering (Response 429 (JObj ∅))) bob
                     (JObj {[ "message" := JStr "Request failed";
                              "response" := response_object 429 (JObj ∅) ]})
                     _ _ _) _);
      try reflexivity.
    split; [split; reflexivity|]. exists "token". split; reflexivity.
Defined.

(** C3, as stated, fails: a 200 response whose body lacks a true
    success flag is not a success (nothing is committed), and the form
    error is empty after the submission. *)
Lemma missing_success_flag_sets_no_error :
  let env := answering (Response 200 (JObj {[ "success" := JBool false ]})) in
  commits (effects env bob) = [] /\ error (after env bob) = "".
Proof. split; vm_compute; reflexivity. Qed.

(** C3 (amended): a submission whose request is rejected, which is what
    axios does on a transport error without response and on every
    status outside 200..299, ends with a non-empty form error. *)
Theorem rejection_sets_error env d outcome :
  answered env d outcome ->
  (exists reason, outcome = Rejected reason /\ nullish reason = false) ->
  error (after env d) <> ""
  /\ forall a,
       (a = NoResponse
        \/ exists status data,
             a = Response status data /\ (status < 200 \/ 300 <= status)%Z) ->
       exists reason, axios_settle a = Rejected reason /\ nullish reason = false.
Proof.
  intros [Hv [token [Ht Hr]]] [reason [-> Hn]]. split.
  - unfold after. rewrite (submit_rejected env d reason token Hv Ht Hr Hn). simpl.
    destruct (truthy _); [discriminate|].
    destruct (strict_eq_num _ 429); discriminate.
  - intros a [-> | [status [data [-> Hs]]]].
    + eexists. split; reflexivity.
    + unfold axios_settle.
      destruct ((200 <=? status)%Z && (status <? 300)%Z) eqn:E.
      * apply andb_true_iff in E as [E1 E2]. lia.
      * eexists. split; reflexivity.
Qed.

Lemma rejection_sets_error_witness :
  error (after (answering (Response 500 JNull)) bob) <> ""
  /\ exists reason,
       axios_settle (Response 500 JNull) = Rejected reason
       /\ nullish reason = false.
Proof.
  pose (H := rejection_sets_error (answering (Response 500 JNull)) bob
               (axios_settle (Response 500 JNull))).
  assert (Ha : answered (answering (Response 500 JNull)) bob
                 (axios_settle (Response 500 JNull))).
  { split; [split; reflexivity|]. exists "token". split; reflexivity. }
  assert (Hr : exists reason,
             axios_settle (Response 500 JNull) = Rejected reason
             /\ nullish reason = false).
  { eexists. split; reflexivity. }
  destruct (H Ha Hr) as [H1 H2]. split; [exact H1|].
  apply H2. right. exists 500%Z, JNull. split; [reflexivity | lia].
Defined.

(* ===================================================================== *)
(** ** Validation failures                                                *)
(* ===================================================================== *)

(** A submission that fails validation touches nothing but the form
    error. *)
Lemma invalid_submission_is_local env d :
  ~ passes_validation d ->
  fst (submit env d) = Normal tt
  /\ effects env d = []
  /\ error (after env d) =
     match validateField d f_username with
     | "" => validateField d f_password
     | u => u
     end.
Proof.
  intros Hn. unfold effects, after. rewrite (submit_invalid env d Hn).
  repeat split.
Qed.

(** C4, as stated, fails: with a non-empty username below the minimum
    length and an empty password, the first empty field is the password
    and its rule does yield "Password is required", yet the form error
    is the username's length message. *)
Lemma empty_password_after_short_username :
  let d := mkData "ab" "" "" false in
  let env := answering NoResponse in
  validateField d f_password = "Password is required"
  /\ error (after env d) = "Username must be at least 3 characters"
  /\ error (after env d) <> "Password is required".
Proof. repeat split; vm_compute; congruence. Qed.

(** C4 (amended): when the username or the password is empty, each
    empty field's rule yields "<Field> is required" with the field name
    capitalized, the submission ends without any request (or any other
    call), and the form error is the message of the first failing field:
    "Username is required" for an empty username, the username's length
    message for a non-empty username shorter than 3 characters, and
    "Password is required" otherwise. *)
Theorem empty_field_is_required env d :
  username d = "" \/ password d = "" ->
  (username d = "" -> validateField d f_username = "Username is required")
  /\ (password d = "" -> validateField d f_password = "Password is required")
  /\ fst (submit env d) = Normal tt
  /\ effects env d = []
  /\ filter is_post (effects env d) = []
  /\ error (after env d) =
     match username d with
     | "" => "Username is required"
     | _ => if Nat.ltb (String.length (username d)) 3
            then "Username must be at least 3 characters"
            else "Password is required"
     end.
Proof.
  intros He.
  assert (Hn : ~ passes_validation d).
  { intros [Hu Hp]. rewrite validateField_username in Hu.
    rewrite validateField_password in Hp.
    destruct He as [He | He]; rewrite He in *; discriminate. }
  destruct (invalid_submission_is_local env d Hn) as [Hc [Hl Herr]].
  split; [|split; [|split; [|split; [|split]]]].
  - intros Hu. rewrite validateField_username, Hu. reflexivity.
  - intros Hp. rewrite validateField_password, Hp. reflexivity.
  - exact Hc.
  - exact Hl.
  - now rewrite Hl.
  - rewrite Herr, validateField_username.
    destruct (username d) as [|c u] eqn:Hu; [reflexivity|].
    destruct (Nat.ltb (String.length (String c u)) 3); [reflexivity|].
    destruct He as [He | He]; [discriminate|].
    rewrite validateField_password, He. reflexivity.
Qed.

Lemma empty_field_is_required_witness :
  let d := mkData "alice" "" "stale" false in
  let env := answering NoResponse in
  validateField d f_password = "Password is required"
  /\ effects env d = []
  /\ error (after env d) = "Password is required".
Proof.
  cbv zeta.
  destruct (empty_field_is_required (answering NoResponse)
              (mkData "alice" "" "stale" false) (or_intror eq_refl))
    as [_ [Hp [_ [Hl [_ He]]]]].
  split; [exact (Hp eq_refl) | split; [exact Hl | exact He]].
Defined.

(** C5, as stated, fails: the empty password is shorter than 8
    characters, and with a valid username the form error is the
    "required" message, not the pattern's message. *)
Lemma empty_password_is_not_a_pattern_failure :
  let d := mkData "bob" "" "" false in
  let env := answering NoResponse in
  validateField d f_username = ""
  /\ String.length (password d) < 8
  /\ error (after env d) = "Password is required"
  /\ error (after env d) <> password_message.
Proof. repeat split; vm_compute; (congruence || lia). Qed.

Lemma short_password_mismatch p :
  String.length p < 8
  \/ some_char is_letter p = false
  \/ some_char is_digit p = false ->
  matches p password_pattern = false.
Proof.
  rewrite password_pattern_spec. intros [H | [H | H]].
  - apply Nat.leb_gt in H. now rewrite H.
  - rewrite H. now rewrite andb_false_r.
  - rewrite H. now rewrite andb_false_r.
Qed.

(** C5 (amended): with a valid username and a non-empty password that
    fails the configured pattern (in particular one shorter than 8
    characters, or without a letter, or without a digit), the form
    error becomes the configured password message and no request is
    issued. *)
Theorem pattern_failure_message env d :
  validateField d f_username = "" ->
  password d <> "" ->
  (String.length (password d) < 8
   \/ some_char is_letter (password d) = false
   \/ some_char is_digit (password d) = false ->
   matches (password d) password_pattern = false)
  /\ (matches (password d) password_pattern = false ->
      error (after env d) =
        "Password must be at least 8 characters and include letters and numbers"
      /\ effects env d = []
      /\ filter is_post (effects env d) = []).
Proof.
  intros Hu Hne. split; [apply short_password_mismatch|].
  intros Hm.
  assert (Hp : validateField d f_password = password_message).
  { rewrite validateField_password, Hm. now destruct (password d). }
  assert (Hn : ~ passes_validation d).
  { intros [_ Hp']. rewrite Hp in Hp'. discriminate. }
  destruct (invalid_submission_is_local env d Hn) as [_ [Hl Herr]].
  rewrite Hu, Hp in Herr. rewrite Hl. repeat split. exact Herr.
Qed.

Lemma pattern_failure_message_witness :
  let d := mkData "bob" "secret1" "" false in
  let env := answering NoResponse in
  error (after env d) = password_message /\ effects env d = [].
Proof.
  cbv zeta.
  assert (Hne : password (mkData "bob" "secret1" "" false) <> "") by discriminate.
  destruct (pattern_failure_message (answering NoResponse)
              (mkData "bob" "secret1" "" false) eq_refl Hne) as [H1 H2].
  assert (Hlen : String.length (password (mkData "bob" "secret1" "" false)) < 8)
    by (simpl; lia).
  destruct (H2 (H1 (or_introl Hlen))) as [He [Hl _]].
  split; [exact He | exact Hl].
Defined.

(** C8: the rules are applied in the order username, password, and the
    form error is the message of the first field that fails: the
    username's message whenever the username fails, the password's only
    when the username passes.  When both fail, the form error is neither
    the password's message nor the two messages put together. *)
Theorem first_failure_wins env d :
  let u := validateField d f_username in
  let p := validateField d f_password in
  (u <> "" -> error (after env d) = u)
  /\ (u = "" -> p <> "" -> error (after env d) = p)
  /\ (u <> "" -> p <> "" ->
      error (after env d) <> p
      /\ forall sep, error (after env d) <> u ++ sep ++ p
                     /\ error (after env d) <> p ++ sep ++ u).
Proof.
  intros u p.
  assert (Hfirst : ~ passes_validation d ->
                   error (after env d) = if String.eqb u "" then p else u).
  { intros Hn. destruct (invalid_submission_is_local env d Hn) as [_ [_ H]].
    rewrite H. subst u p. now destruct (validateField d f_username). }
  assert (Hu : u <> "" -> error (after env d) = u).
  { intros Hne. rewrite Hfirst.
    - apply String.eqb_neq in Hne. now rewrite Hne.
    - intros [H _]. apply Hne, H. }
  split; [exact Hu | split].
  - intros Hue Hpne. rewrite Hfirst.
    + now rewrite Hue.
    + intros [_ H]. apply Hpne, H.
  - intros Hune Hpne. rewrite (Hu Hune). split.
    + subst u p. rewrite validateField_username, validateField_password in *.
      destruct (username d) as [|c n]; destruct (password d) as [|c' n'];
        try destruct (Nat.ltb _ 3);
        try destruct (matches _ password_pattern);
        unfold password_message; congruence.
    + assert (Hlen : 0 < String.length p) by (destruct p; [congruence | simpl; lia]).
      intros sep. split; intros Heq; apply (f_equal String.length) in Heq;
        rewrite !string_length_app in Heq; lia.
Qed.

Lemma first_failure_wins_witness :
  let d := mkData "ab" "short" "" false in
  let env := answering NoResponse in
  error (after env d) = "Username must be at least 3 characters"
  /\ error (after env d) <> password_message
  /\ error (after (answering NoResponse) (mkData "abc" "short" "" false))
     = password_message.
Proof.
  cbv zeta.
  destruct (first_failure_wins (answering NoResponse) (mkData "ab" "short" "" false))
    as [H1 [_ H3]].
  destruct (first_failure_wins (answering NoResponse) (mkData "abc" "short" "" false))
    as [_ [H2 _]].
  split; [|split].
  - apply H1. discriminate.
  - apply H3; discriminate.
  - apply H2; [reflexivity | discriminate].
Defined.

(** C10: the gate of the submit button and the validation at submit
    agree.  [validateForm] returns exactly the truth value of [isValid],
    which holds when the username has at least 3 characters and the
    password matches the configured pattern. *)
Theorem isValid_agrees_with_validateForm d l :
  fst (validateForm (mkWorld d l)) = Normal (isValid d)
  /\ (isValid d = true <->
      3 <= String.length (username d)
      /\ matches (password d) password_pattern = true).
Proof.
  assert (Hiff : isValid d = true <->
                 3 <= String.length (username d)
                 /\ matches (password d) password_pattern = true).
  { unfold isValid. simpl pattern. cbv iota.
    rewrite andb_true_iff, Nat.leb_le. reflexivity. }
  split; [|exact Hiff].
  rewrite validateForm_run.
  destruct (isValid d) eqn:Hv.
  - destruct (proj1 Hiff eq_refl) as [Hu Hp].
    apply username_valid_iff in Hu. apply password_valid_iff in Hp.
    now rewrite Hu, Hp.
  - destruct (validateField d f_username) eqn:Hu; [|reflexivity].
    destruct (validateField d f_password) eqn:Hp; [|reflexivity].
    apply username_valid_iff in Hu. apply password_valid_iff in Hp.
    discriminate (proj2 Hiff (conj Hu Hp)).
Qed.

(* ===================================================================== *)
(** ** Successful and failed requests                                     *)
(* ===================================================================== *)

(** C6: valid credentials answered by a response whose body has a true
    success flag and the user [u]: "setUser" is committed once, with
    [u]; the "success" event is emitted once, with "Login successful!";
    username and password are as they were. *)
Theorem success_commits_and_notifies env d response :
  answered env d (Fulfilled response) ->
  truthy (get (get response "data") "success") = true ->
  let u := get (get response "data") "user" in
  commits (effects env d) = [("setUser", u)]
  /\ emits (effects env d) = [("success", JStr "Login successful!")]
  /\ username (after env d) = username d
  /\ password (after env d) = password d
  /\ fst (submit env d) = Normal tt.
Proof.
  intros [Hv [token [Ht Hr]]] Hs u. unfold effects, after.
  rewrite (submit_fulfilled env d token response Hv Ht Hr).
  assert (Hd : nullish (get response "data") = false).
  { destruct (get response "data"); try reflexivity; discriminate. }
  assert (Hn : nullish response = false).
  { destruct response; try reflexivity; discriminate. }
  rewrite Hn, Hd, Hs. repeat split.
Qed.

Lemma success_commits_and_notifies_witness :
  let user := JObj {[ "id" := JNum 1 ]} in
  let env := answering (Response 200 (JObj {[ "success" := JBool true;
                                              "user" := user ]})) in
  commits (effects env bob) = [("setUser", user)]
  /\ emits (effects env bob) = [("success", JStr "Login successful!")]
  /\ username (after env bob) = "bob"
  /\ password (after env bob) = "abcdefg1".
Proof.
  cbv zeta.
  destruct (success_commits_and_notifies
              (answering (Response 200 (JObj {[ "success" := JBool true;
                                                "user" := JObj {[ "id" := JNum 1 ]} ]})))
              bob
              (response_object 200 (JObj {[ "success" := JBool true;
                                            "user" := JObj {[ "id" := JNum 1 ]} ]})))
    as [H1 [H2 [H3 [H4 _]]]].
  - split; [split; reflexivity|]. exists "token". split; reflexivity.
  - reflexivity.
  - split; [exact H1 | split; [exact H2 | split; [exact H3 | exact H4]]].
Defined.

(** Between submissions the form is never left submitting. *)
Lemma run_not_loading events : isLoading (run events) = false.
Proof.
  unfold run. assert (H : isLoading initial = false) by reflexivity.
  revert H. generalize initial. induction events as [|e events IH]; intros d Hd.
  - exact Hd.
  - simpl. apply IH. destruct e as [v | v | env]; simpl; try exact Hd.
    destruct (passes_validation_dec d) as [Hv | Hn].
    + apply submit_valid_resets, Hv.
    + unfold after. rewrite (submit_invalid env d Hn). exact Hd.
Qed.

(** C7: a rejection that carries no response object leaves the generic
    message in the form error, and [isLoading] is false after the
    submission: on every path through the request, from any state, by
    the finally block; and on the validation-failure path too, from
    every state the form can be in when it is submitted. *)
Theorem generic_fallback_and_cleanup env :
  (forall d reason,
     answered env d (Rejected reason) ->
     nullish reason = false ->
     nullish (get reason "response") = true ->
     error (after env d) = "Authentication failed. Please try again."
     /\ isLoading (after env d) = false)
  /\ (forall d, passes_validation d -> isLoading (after env d) = false)
  /\ (forall events, isLoading (after env (run events)) = false).
Proof.
  split; [|split].
  - intros d reason [Hv [token [Ht Hr]]] Hn Hresp. unfold after.
    rewrite (submit_rejected env d reason token Hv Ht Hr Hn). simpl.
    unfold body_message, response_status, opt_chain. rewrite Hresp.
    split; reflexivity.
  - intros d Hv. apply submit_valid_resets, Hv.
  - intros events.
    pose proof (run_not_loading (events ++ [SubmitForm env])) as H.
    unfold run in H. rewrite fold_left_app in H. exact H.
Qed.

Lemma generic_fallback_and_cleanup_witness :
  let env := answering NoResponse in
  error (after env bob) = "Authentication failed. Please try again."
  /\ isLoading (after env bob) = false
  /\ isLoading (after env (run [UpdateUsername "al"; SubmitForm env])) = false.
Proof.
  cbv zeta.
  destruct (generic_fallback_and_cleanup (answering NoResponse)) as [H1 [_ H3]].
  destruct (H1 bob (JObj {[ "message" := JStr "Network Error" ]})) as [He Hl];
    try reflexivity.
  - split; [split; reflexivity|]. exists "token". split; reflexivity.
  - split; [exact He | split; [exact Hl | apply H3]].
Defined.

(* ===================================================================== *)
(** ** The identifier of a field                                          *)
(* ===================================================================== *)

Section InputIdFacts.

Lemma atom_space c : atom_matches (AClass [CSpace]) c = is_space c.
Proof. simpl. now rewrite orb_false_r. Qed.

Lemma span_ext p q s :
  (forall c, p c = q c) ->
  span_len p s = span_len q s /\ span_drop p s = span_drop q s.
Proof.
  intros H. induction s as [|c s' [IH1 IH2]]; simpl; [now split|].
  rewrite H. destruct (q c); [now rewrite IH1, IH2 | now split].
Qed.

(** [\s+] takes the whole run of whitespace in front of it, and needs
    one character of it. *)
Lemma rmatch_whitespace_run i s :
  rmatch whitespace_run i s =
  match span_len is_space s with
  | 0 => None
  | S _ => Some (span_drop is_space s)
  end.
Proof.
  unfold whitespace_run, RPlus. rewrite rmatch_rep, rmatch_rep_span.
  destruct (span_ext (atom_matches (AClass [CSpace])) is_space s atom_space)
    as [-> ->].
  now destruct (span_len is_space s).
Qed.

(** The scan of [replace], in a run ([skip] characters of it left) and
    outside of one. *)
Lemma replace_whitespace s : forall i,
  replace_from whitespace_run "-" (span_len is_space s) i s = hyphenate true s
  /\ replace_from whitespace_run "-" 0 i s = hyphenate false s.
Proof.
  induction s as [|c s' IH]; intros i.
  - split; reflexivity.
  - destruct (IH (S i)) as [IHrun IHout].
    pose proof (span_len_drop is_space (String c s')) as Hlen.
    cbn [replace_from hyphenate]. rewrite rmatch_whitespace_run.
    cbn [span_len span_drop] in *. destruct (is_space c).
    + rewrite Hlen, IHrun. split; reflexivity.
    + rewrite IHout. split; reflexivity.
Qed.

End InputIdFacts.

(** C9: the identifier is a function of the label alone: "field-"
    followed by the lower-cased label in which every run of whitespace
    has become one hyphen; for "User Name" it is "field-user-name". *)
Theorem inputId_is_hyphenated_label :
  (forall label, inputId label = inputId_spec label)
  /\ inputId "User Name" = "field-user-name".
Proof.
  split; [|reflexivity].
  intros label. unfold inputId, inputId_spec, replace_all.
  now rewrite (proj2 (replace_whitespace (toLowerCase label) 0)).
Qed.

(* ===================================================================== *)
(** ** More on the validated form                                         *)
(* ===================================================================== *)

Lemma submit_rejected_nullish env d reason token :
  passes_validation d -> csrf_meta env = Some token ->
  axios_post env "/api/login" (request_body d) (request_config (JStr token))
    = Rejected reason ->
  nullish reason = true ->
  submit env d =
  (Throw TypeError,
   mkWorld (mkData (username d) (password d) "" false)
     [Post "/api/login" (request_body d) (request_config (JStr token))]).
Proof.
  intros [Hu Hp] Ht Hr Hn. unfold submit, handleSubmit, bind.
  rewrite validateForm_run, Hu, Hp.
  unfold try_finally, try_catch, bind, csrf_content, await_post, bind. simpl.
  rewrite Ht. simpl. rewrite request_body_loading, Hr.
  unfold throw, catch_message, prop, bind. rewrite Hn. reflexivity.
Qed.

Lemma isValid_passes d : isValid d = true <-> passes_validation d.
Proof.
  unfold passes_validation. rewrite username_valid_iff, password_valid_iff.
  unfold isValid. simpl pattern. cbv iota.
  rewrite andb_true_iff, Nat.leb_le. reflexivity.
Qed.

(** Every way a submission can go: rewrites [submit env d] in the goal
    by the run of each path. *)
Ltac submit_cases env d :=
  let Hv := fresh "Hv" in
  let Ht := fresh "Ht" in
  let Hr := fresh "Hr" in
  let Hn := fresh "Hn" in
  let token := fresh "token" in
  let response := fresh "response" in
  let reason := fresh "reason" in
  destruct (passes_validation_dec d) as [Hv | Hv];
  [ destruct (csrf_meta env) as [token|] eqn:Ht;
    [ destruct (axios_post env "/api/login" (request_body d)
                  (request_config (JStr token)))
        as [response | reason] eqn:Hr;
      [ rewrite (submit_fulfilled env d token response Hv Ht Hr)
      | destruct (nullish reason) eqn:Hn;
        [ rewrite (submit_rejected_nullish env d reason token Hv Ht Hr Hn)
        | rewrite (submit_rejected env d reason token Hv Ht Hr Hn) ] ]
    | rewrite (submit_no_token env d Hv Ht) ]
  | rewrite (submit_invalid env d Hv) ].

(** X1: the configured password pattern accepts exactly the strings of
    at least 8 characters that consist of ASCII letters and digits only
    and contain at least one letter and at least one digit. *)
Theorem password_pattern_accepts p :
  matches p password_pattern = true <->
  8 <= String.length p
  /\ all_chars is_alnum p = true
  /\ some_char is_letter p = true
  /\ some_char is_digit p = true.
Proof.
  rewrite password_pattern_spec, !andb_true_iff, Nat.leb_le. tauto.
Qed.

(** X2: when the page has no csrf-token meta element, a submission that
    passes validation makes no request at all: reading the token throws
    inside the try block, the form error becomes the generic message and
    the loading flag is reset. *)
Theorem missing_token_blocks_request env d :
  passes_validation d ->
  csrf_meta env = None ->
  effects env d = []
  /\ error (after env d) = "Authentication failed. Please try again."
  /\ isLoading (after env d) = false
  /\ fst (submit env d) = Normal tt.
Proof.
  intros Hv Ht. unfold effects, after. rewrite (submit_no_token env d Hv Ht).
  repeat split.
Qed.

Lemma missing_token_blocks_request_witness :
  let env := mkEnv None (fun _ _ _ => axios_settle (Response 200 JNull)) in
  effects env bob = []
  /\ error (after env bob) = "Authentication failed. Please try again.".
Proof.
  cbv zeta.
  assert (Hv : passes_validation bob) by (split; reflexivity).
  destruct (missing_token_blocks_request
              (mkEnv None (fun _ _ _ => axios_settle (Response 200 JNull)))
              bob Hv eq_refl) as [H1 [H2 _]].
  split; [exact H1 | exact H2].
Defined.

(** X3: a submission makes one request when the data satisfies
    [isValid] and the page has a token, and none otherwise.  The request
    goes to /api/login, its body holds the username and the password as
    they are in the form, and its X-CSRF-TOKEN header holds the token. *)
Theorem requests_of_a_submission env d :
  filter is_post (effects env d) =
  (if isValid d then
     match csrf_meta env with
     | Some token =>
         [Post "/api/login" (request_body d) (request_config (JStr token))]
     | None => []
     end
   else [])
  /\ get (request_body d) "username" = JStr (username d)
  /\ get (request_body d) "password" = JStr (password d)
  /\ forall token,
       get (get (request_config token) "headers") "X-CSRF-TOKEN" = token.
Proof.
  split; [|repeat split].
  unfold effects. destruct (isValid d) eqn:Hi.
  - apply isValid_passes in Hi.
    submit_cases env d; try contradiction; try reflexivity.
    cbv zeta.
    destruct (nullish response || nullish (get response "data")); [reflexivity|].
    destruct (truthy (get (get response "data") "success")); reflexivity.
  - assert (Hn : ~ passes_validation d).
    { intros Hv. apply isValid_passes in Hv. congruence. }
    rewrite (submit_invalid env d Hn). reflexivity.
Qed.

(** X4: the store is written and the success event is emitted only
    when the request was made and fulfilled with a body whose success
    flag is truthy; no other path commits or emits anything. *)
Theorem commit_only_on_success env d :
  commits (effects env d) <> [] \/ emits (effects env d) <> [] ->
  exists response,
    answered env d (Fulfilled response)
    /\ truthy (get (get response "data") "success") = true.
Proof.
  unfold effects. submit_cases env d; cbv zeta; simpl;
    try (intros [H | H]; congruence).
  destruct (nullish response || nullish (get response "data"));
    [simpl; intros [H | H]; congruence|].
  destruct (truthy (get (get response "data") "success")) eqn:Hs;
    [|simpl; intros [H | H]; congruence].
  intros _. exists response. split; [|exact Hs].
  split; [assumption|]. exists token. split; assumption.
Qed.

Lemma commit_only_on_success_witness :
  let body := JObj {[ "success" := JNum 1; "user" := JStr "ann" ]} in
  exists response,
    answered (answering (Response 201 body)) bob (Fulfilled response)
    /\ truthy (get (get response "data") "success") = true.
Proof.
  cbv zeta.
  apply (commit_only_on_success
           (answering (Response 201 (JObj {[ "success" := JNum 1;
                                             "user" := JStr "ann" ]}))) bob).
  left. vm_compute. discriminate.
Defined.

(** X5: every submission overwrites the form error.  The run of
    [handleSubmit], its calls and the data it leaves do not depend on
    the error the form showed before. *)
Theorem stale_error_is_overwritten env d e :
  submit env (set_error e d) = submit env d.
Proof.
  unfold submit, handleSubmit, bind. rewrite !validateForm_run.
  change (validateField (set_error e d) f_username)
    with (validateField d f_username).
  change (validateField (set_error e d) f_password)
    with (validateField d f_password).
  destruct (validateField d f_username); [|reflexivity].
  destruct (validateField d f_password); reflexivity.
Qed.

(** X6: [handleSubmit] never writes the username or the password,
    whichever way the submission ends. *)
Theorem submission_keeps_the_fields env d :
  username (after env d) = username d
  /\ password (after env d) = password d.
Proof.
  unfold after. submit_cases env d; cbv zeta; try (split; reflexivity).
  destruct (nullish response || nullish (get response "data"));
    [split; reflexivity|].
  destruct (truthy (get (get response "data") "success")); split; reflexivity.
Qed.

(** X7: a fulfilled response without a body to read the success flag
    from (the response or its [data] is null or undefined) ends in the
    catch block: the form error is the generic message, and nothing is
    committed or emitted. *)
Theorem fulfilled_without_body env d response :
  answered env d (Fulfilled response) ->
  nullish response || nullish (get response "data") = true ->
  error (after env d) = "Authentication failed. Please try again."
  /\ commits (effects env d) = []
  /\ emits (effects env d) = []
  /\ isLoading (after env d) = false.
Proof.
  intros [Hv [token [Ht Hr]]] Hn. unfold after, effects.
  rewrite (submit_fulfilled env d token response Hv Ht Hr). cbv zeta.
  rewrite Hn. repeat split.
Qed.

Lemma fulfilled_without_body_witness :
  let env := answering (Response 200 JNull) in
  error (after env bob) = "Authentication failed. Please try again."
  /\ commits (effects env bob) = [].
Proof.
  cbv zeta.
  destruct (fulfilled_without_body (answering (Response 200 JNull)) bob
              (response_object 200 JNull)) as [H1 [H2 _]].
  - split; [split; reflexivity|]. exists "token". split; reflexivity.
  - reflexivity.
  - split; [exact H1 | exact H2].
Defined.

(** X8: a fulfilled response whose body is there but carries no truthy
    success flag has no effect beyond the request: nothing is committed
    or emitted, and the form error is left empty. *)
Theorem fulfilled_without_success_flag env d response :
  answered env d (Fulfilled response) ->
  nullish response = false ->
  nullish (get response "data") = false ->
  truthy (get (get response "data") "success") = false ->
  error (after env d) = ""
  /\ commits (effects env d) = []
  /\ emits (effects env d) = []
  /\ isLoading (after env d) = false
  /\ fst (submit env d) = Normal tt.
Proof.
  intros [Hv [token [Ht Hr]]] Hn Hd Hs. unfold after, effects.
  rewrite (submit_fulfilled env d token response Hv Ht Hr). cbv zeta.
  rewrite Hn, Hd, Hs. repeat split.
Qed.

Lemma fulfilled_without_success_flag_witness :
  let env := answering (Response 200 (JStr "ok")) in
  error (after env (set_error "stale" bob)) = ""
  /\ commits (effects env (set_error "stale" bob)) = [].
Proof.
  cbv zeta.
  destruct (fulfilled_without_success_flag (answering (Response 200 (JStr "ok")))
              (set_error "stale" bob) (response_object 200 (JStr "ok")))
    as [H1 [H2 _]]; try reflexivity.
  - split; [split; reflexivity|]. exists "token". split; reflexivity.
  - split; [exact H1 | exact H2].
Defined.

(** X9: [handleSubmit] completes normally whenever the rejections it
    may meet are error objects (neither null nor undefined): only a
    property read on such a reason, inside the catch block, escapes. *)
Theorem submit_completes_normally env d :
  (forall url body config reason,
     axios_post env url body config = Rejected reason ->
     nullish reason = false) ->
  fst (submit env d) = Normal tt.
Proof.
  intros Hobj. submit_cases env d; cbv zeta; try reflexivity.
  - destruct (nullish response || nullish (get response "data")); [reflexivity|].
    destruct (truthy (get (get response "data") "success")); reflexivity.
  - rewrite (Hobj _ _ _ _ Hr) in Hn. discriminate.
Qed.

Lemma submit_completes_normally_witness :
  fst (submit (answering (Response 503 JUndefined)) bob) = Normal tt.
Proof.
  apply (submit_completes_normally (answering (Response 503 JUndefined)) bob).
  intros url body config reason H. simpl in H.
  injection H as <-. reflexivity.
Defined.

(* ===================================================================== *)
(** ** More on the field widget                                           *)
(* ===================================================================== *)

Lemma inputId_hyphenate label :
  inputId label = "field-" ++ hyphenate false (toLowerCase label).
Proof.
  unfold inputId, replace_all.
  now rewrite (proj2 (replace_whitespace (toLowerCase label) 0)).
Qed.

Lemma some_char_app p a b :
  some_char p (a ++ b) = some_char p a || some_char p b.
Proof.
  induction a as [|c a IH]; simpl; [reflexivity|]. now rewrite IH, orb_assoc.
Qed.



Lemma hyphenate_no_space s : forall in_run,
  some_char is_space (hyphenate in_run s) = false.
Proof.
  induction s as [|c s IH]; intros in_run; simpl; [reflexivity|].
  destruct (is_space c) eqn:Hc.
  - destruct in_run; simpl; apply IH.
  - simpl. now rewrite Hc, IH.
Qed.

Lemma inputId_has_no_whitespace_aux label :
  some_char is_space (inputId label) = false.
Proof.
  rewrite inputId_hyphenate, some_char_app, hyphenate_no_space. reflexivity.
Qed.











Lemma app_not_self (a b : string) : b <> "" -> a ++ b <> a.
Proof.
  intros Hb Heq. apply (f_equal String.length) in Heq.
  rewrite string_length_app in Heq. destruct b; [congruence | simpl in Heq; lia].
Qed.

(** X12: the wiring of the widget.  The label points at the input; the
    input is marked invalid exactly when the error prop is not empty;
    the error paragraph is rendered exactly then, and
    [aria-describedby] is present exactly then and names the id of that
    paragraph, an id without whitespace that differs from the input's. *)
Theorem field_view_wiring p :
  let v := FieldWidget.render p in
  FieldWidget.label_for v = FieldWidget.input_id v
  /\ (FieldWidget.aria_invalid v = true <-> FieldWidget.error p <> "")
  /\ (FieldWidget.error p = "" ->
      FieldWidget.aria_describedby v = None
      /\ FieldWidget.error_paragraph v = None)
  /\ (FieldWidget.error p <> "" ->
      exists id,
        FieldWidget.aria_describedby v = Some id
        /\ FieldWidget.error_paragraph v = Some (id, FieldWidget.error p)
        /\ id <> FieldWidget.input_id v
        /\ some_char is_space id = false).
Proof.
  cbv zeta. unfold FieldWidget.render, FieldWidget.hasError. simpl.
  destruct (FieldWidget.error p) as [|c e] eqn:He; simpl.
  - split; [reflexivity|]. split; [split; [discriminate | congruence]|].
    split; [intros _; split; reflexivity | congruence].
  - split; [reflexivity|].
    split; [split; [intros _; discriminate | reflexivity]|].
    split; [discriminate|]. intros _.
    exists (FieldWidget.inputId p ++ "-error").
    split; [reflexivity|]. split; [reflexivity|]. split.
    + apply app_not_self. discriminate.
    + unfold FieldWidget.inputId.
      rewrite some_char_app, inputId_has_no_whitespace_aux. reflexivity.
Qed.

Lemma field_view_wiring_witness :
  let p := FieldWidget.mkProps "" "Postal Code" "text" "Required" false None in
  exists id,
    FieldWidget.aria_describedby (FieldWidget.render p) = Some id
    /\ id <> FieldWidget.input_id (FieldWidget.render p).
Proof.
  cbv zeta.
  destruct (field_view_wiring
              (FieldWidget.mkProps "" "Postal Code" "text" "Required" false None))
    as [_ [_ [_ H]]].
  destruct H as [id [Hd [_ [Hne _]]]]; [discriminate|].
  exists id. split; [exact Hd | exact Hne].
Defined.

(* ===================================================================== *)
(** ** The template of the validated form                                 *)
(* ===================================================================== *)

Lemma hasError_iff p : FieldWidget.hasError p = false <-> FieldWidget.error p = "".
Proof.
  unfold FieldWidget.hasError. simpl. destruct (FieldWidget.error p); simpl.
  - split; reflexivity.
  - split; discriminate.
Qed.

(** X13: the submit button and the inline errors agree: the button is
    disabled exactly when the form is submitting or one of the two
    fields shows an error.  The two fields get distinct ids, and the
    alert is shown exactly when the form error is not empty. *)
Theorem button_follows_inline_errors d :
  LoginFormView.button_disabled d
  = isLoading d
    || FieldWidget.hasError (LoginFormView.username_field d)
    || FieldWidget.hasError (LoginFormView.password_field d)
  /\ FieldWidget.input_id (FieldWidget.render (LoginFormView.username_field d))
     = "field-username"
  /\ FieldWidget.input_id (FieldWidget.render (LoginFormView.password_field d))
     = "field-password"
  /\ (LoginFormView.alert d = None <-> error d = "").
Proof.
  split; [|split; [reflexivity | split; [reflexivity|]]].
  - unfold LoginFormView.button_disabled. rewrite <- orb_assoc. f_equal.
    destruct (FieldWidget.hasError (LoginFormView.username_field d)) eqn:Hu;
      destruct (FieldWidget.hasError (LoginFormView.password_field d)) eqn:Hp;
      simpl.
    + destruct (isValid d) eqn:Hi; [|reflexivity].
      apply isValid_passes in Hi as [Hi _].
      apply (proj2 (hasError_iff (LoginFormView.username_field d))) in Hi.
      congruence.
    + destruct (isValid d) eqn:Hi; [|reflexivity].
      apply isValid_passes in Hi as [Hi _].
      apply (proj2 (hasError_iff (LoginFormView.username_field d))) in Hi.
      congruence.
    + destruct (isValid d) eqn:Hi; [|reflexivity].
      apply isValid_passes in Hi as [_ Hi].
      apply (proj2 (hasError_iff (LoginFormView.password_field d))) in Hi.
      congruence.
    + apply hasError_iff in Hu. apply hasError_iff in Hp.
      assert (Hi : isValid d = true) by (apply isValid_passes; now split).
      now rewrite Hi.
  - unfold LoginFormView.alert. simpl. destruct (error d); simpl.
    + split; reflexivity.
    + split; discriminate.
Qed.

(** X14: typing reaches the form.  The value a field emits through
    [updateValue] becomes the bound data property, nothing else of the
    data changes, and the field is rendered again with that value and
    with the verdict of its rule on that value alone. *)
Theorem typing_reaches_the_form f v d :
  let d' := LoginFormView.on_update f (FieldWidget.updateValue v) d in
  let field := match f with
               | f_username => LoginFormView.username_field
               | f_password => LoginFormView.password_field
               end in
  field_value d' f = v
  /\ (forall g, g <> f -> field_value d' g = field_value d g)
  /\ error d' = error d
  /\ isLoading d' = isLoading d
  /\ FieldWidget.input_value (FieldWidget.render (field d')) = v
  /\ FieldWidget.error (field d') = validateField (mkData v v "" false) f.
Proof.
  cbv zeta. destruct f; simpl.
  - repeat split. intros g Hg. destruct g; [congruence | reflexivity].
  - repeat split. intros g Hg. destruct g; [reflexivity | congruence].
Qed.

(* ===================================================================== *)
(** ** The variant without field rules                                    *)
(* ===================================================================== *)

Section BasicFacts.

Variable env : Env.
Variable d : BasicForm.Data.

Let u := BasicForm.username d.
Let p := BasicForm.password d.

Lemma basic_submit_empty :
  truthy (JStr u) && truthy (JStr p) = false ->
  BasicForm.submit env d
  = (Normal tt, (BasicForm.set_error (JStr "Please fill in all fields") d, [])).
Proof.
  intros H. unfold BasicForm.submit, BasicForm.handleSubmit,
    BasicForm.validateForm, Method.bind, Method.read. simpl in *.
  fold u p. destruct (String.eqb u ""); destruct (String.eqb p "");
    try discriminate; reflexivity.
Qed.

Lemma basic_submit_no_token :
  truthy (JStr u) && truthy (JStr p) = true ->
  csrf_meta env = None ->
  BasicForm.submit env d
  = (Normal tt,
     (BasicForm.mkData u p (JStr "Authentication failed. Please try again.")
        false, [])).
Proof.
  intros H Ht. apply andb_true_iff in H as [Hu Hp].
  unfold BasicForm.submit, BasicForm.handleSubmit,
    BasicForm.validateForm, Method.bind, Method.read. simpl in *.
  fold u p. rewrite Hu, Hp. simpl.
  unfold Method.try_finally, Method.try_catch, Method.bind, Method.csrf_content.
  simpl. rewrite Ht. reflexivity.
Qed.

Variable token : string.

Let post : Effect :=
  Post "/api/login" (Method.credentials u p) (request_config (JStr token)).

Lemma basic_submit_rejected reason :
  truthy (JStr u) && truthy (JStr p) = true ->
  csrf_meta env = Some token ->
  axios_post env "/api/login" (Method.credentials u p)
    (request_config (JStr token)) = Rejected reason ->
  BasicForm.submit env d
  = if nullish reason
    then (Throw TypeError, (BasicForm.mkData u p (BasicForm.error d) false, [post]))
    else (Normal tt,
          (BasicForm.mkData u p
             (or (body_message reason)
                 (JStr "Authentication failed. Please try again."))
             false, [post])).
Proof.
  intros H Ht Hr. apply andb_true_iff in H as [Hu Hp].
  unfold BasicForm.submit, BasicForm.handleSubmit,
    BasicForm.validateForm, Method.bind, Method.read. simpl in *.
  fold u p. rewrite Hu, Hp. simpl.
  unfold Method.try_finally, Method.try_catch, Method.bind, Method.csrf_content,
    Method.await_post, Method.bind. simpl.
  rewrite Ht. simpl. fold u p. rewrite Hr.
  unfold Method.throw, Method.prop. destruct (nullish reason); reflexivity.
Qed.

Lemma basic_submit_fulfilled response :
  truthy (JStr u) && truthy (JStr p) = true ->
  csrf_meta env = Some token ->
  axios_post env "/api/login" (Method.credentials u p)
    (request_config (JStr token)) = Fulfilled response ->
  let data := get response "data" in
  BasicForm.submit env d
  = if nullish response || nullish data then
      (Normal tt,
       (BasicForm.mkData u p (JStr "Authentication failed. Please try again.")
          false, [post]))
    else if truthy (get data "success") then
      (Normal tt,
       (BasicForm.mkData u p (BasicForm.error d) false,
        [post; Commit "setUser" (get data "user");
         Emit "success" (JStr "Login successful!")]))
    else
      (Normal tt, (BasicForm.mkData u p (BasicForm.error d) false, [post])).
Proof.
  intros H Ht Hr. apply andb_true_iff in H as [Hu Hp].
  unfold BasicForm.submit, BasicForm.handleSubmit,
    BasicForm.validateForm, Method.bind, Method.read. simpl in *.
  fold u p. rewrite Hu, Hp. simpl.
  unfold Method.try_finally, Method.try_catch, Method.bind, Method.csrf_content,
    Method.await_post, Method.bind. simpl.
  rewrite Ht. simpl. fold u p. rewrite Hr.
  unfold Method.on_response, Method.bind, Method.ret, Method.prop.
  destruct (nullish response) eqn:Hn; [reflexivity|]. simpl.
  destruct (nullish (get response "data")) eqn:Hd; [reflexivity|].
  unfold Method.ret.
  destruct (truthy (get (get response "data") "success")); reflexivity.
Qed.

End BasicFacts.

Lemma truthy_str_false s : truthy (JStr s) = false <-> s = "".
Proof.
  simpl. destruct s; simpl; split; (reflexivity || discriminate).
Qed.

(** X15: in the variant without field rules, a submission with an empty
    username or an empty password stops at once: the form error is
    "Please fill in all fields", nothing is requested, committed or
    emitted, and the loading flag is not touched. *)
Theorem basic_empty_field_check env d :
  BasicForm.username d = "" \/ BasicForm.password d = "" ->
  BasicForm.submit env d
  = (Normal tt,
     (BasicForm.mkData (BasicForm.username d) (BasicForm.password d)
        (JStr "Please fill in all fields") (BasicForm.isLoading d), [])).
Proof.
  intros H. apply basic_submit_empty.
  destruct H as [H | H]; rewrite H; [reflexivity | apply andb_false_r].
Qed.

Lemma basic_empty_field_check_witness :
  BasicForm.effects (answering (Response 200 JNull))
    (BasicForm.mkData "ann" "" (JStr "") false) = []
  /\ BasicForm.error
       (BasicForm.after (answering (Response 200 JNull))
          (BasicForm.mkData "ann" "" (JStr "") false))
     = JStr "Please fill in all fields".
Proof.
  unfold BasicForm.effects, BasicForm.after.
  rewrite (basic_empty_field_check (answering (Response 200 JNull))
             (BasicForm.mkData "ann" "" (JStr "") false) (or_intror eq_refl)).
  split; reflexivity.
Defined.

(** X16: that variant sends every pair of non-empty credentials,
    whatever their length or shape: a submission makes one request to
    /api/login, with the credentials and the token, exactly when both
    fields are non-empty and the page has a token, and none otherwise. *)
Theorem basic_requests env d :
  filter is_post (BasicForm.effects env d) =
  if truthy (JStr (BasicForm.username d)) && truthy (JStr (BasicForm.password d))
  then
    match csrf_meta env with
    | Some token =>
        [Post "/api/login"
           (Method.credentials (BasicForm.username d) (BasicForm.password d))
           (request_config (JStr token))]
    | None => []
    end
  else [].
Proof.
  unfold BasicForm.effects.
  destruct (truthy (JStr (BasicForm.username d))
            && truthy (JStr (BasicForm.password d))) eqn:H.
  - destruct (csrf_meta env) as [token|] eqn:Ht.
    + destruct (axios_post env "/api/login"
                  (Method.credentials (BasicForm.username d) (BasicForm.password d))
                  (request_config (JStr token))) as [response | reason] eqn:Hr.
      * rewrite (basic_submit_fulfilled env d token response H Ht Hr). cbv zeta.
        destruct (nullish response || nullish (get response "data"));
          [reflexivity|].
        destruct (truthy (get (get response "data") "success")); reflexivity.
      * rewrite (basic_submit_rejected env d token reason H Ht Hr).
        destruct (nullish reason); reflexivity.
    + rewrite (basic_submit_no_token env d H Ht). reflexivity.
  - rewrite (basic_submit_empty env d H). reflexivity.
Qed.

(** X17: the catch block of that variant does show the message of the
    response body: after a rejection the form error is that message when
    it is truthy, and the generic message otherwise, whatever the
    status; the loading flag is reset. *)
Theorem basic_shows_body_message env d token reason :
  BasicForm.username d <> "" ->
  BasicForm.password d <> "" ->
  csrf_meta env = Some token ->
  axios_post env "/api/login"
    (Method.credentials (BasicForm.username d) (BasicForm.password d))
    (request_config (JStr token)) = Rejected reason ->
  nullish reason = false ->
  (truthy (body_message reason) = true ->
   BasicForm.error (BasicForm.after env d) = body_message reason)
  /\ (truthy (body_message reason) = false ->
      BasicForm.error (BasicForm.after env d)
      = JStr "Authentication failed. Please try again.")
  /\ BasicForm.isLoading (BasicForm.after env d) = false.
Proof.
  intros Hu Hp Ht Hr Hn.
  assert (H : truthy (JStr (BasicForm.username d))
              && truthy (JStr (BasicForm.password d)) = true).
  { apply andb_true_iff. split; apply not_false_iff_true;
      intros E; apply truthy_str_false in E; contradiction. }
  unfold BasicForm.after.
  rewrite (basic_submit_rejected env d token reason H Ht Hr), Hn. simpl.
  unfold or. split; [|split]; try reflexivity; intros Hm; now rewrite Hm.
Qed.

Lemma basic_shows_body_message_witness :
  let env := answering (Response 401 (JObj {[ "message" := JStr "Account locked" ]})) in
  BasicForm.error (BasicForm.after env (BasicForm.mkData "ann" "pw" (JStr "") false))
  = JStr "Account locked".
Proof.
  cbv zeta.
  refine (proj1 (basic_shows_body_message
                   (answering (Response 401 (JObj {[ "message" := JStr "Account locked" ]})))
                   (BasicForm.mkData "ann" "pw" (JStr "") false)
                   "token"
                   (JObj {[ "message" := JStr "Request failed";
                            "response" :=
                              response_object 401
                                (JObj {[ "message" := JStr "Account locked" ]}) ]})
                   _ _ _ _ _) _);
    (reflexivity || discriminate).
Defined.

(** X18: that variant never clears the form error: after a request
    fulfilled with a body, successful or not, the form still shows the
    error it showed before the submission. *)
Theorem basic_error_survives_success env d token response :
  BasicForm.username d <> "" ->
  BasicForm.password d <> "" ->
  csrf_meta env = Some token ->
  axios_post env "/api/login"
    (Method.credentials (BasicForm.username d) (BasicForm.password d))
    (request_config (JStr token)) = Fulfilled response ->
  nullish response || nullish (get response "data") = false ->
  BasicForm.error (BasicForm.after env d) = BasicForm.error d.
Proof.
  intros Hu Hp Ht Hr Hn.
  assert (H : truthy (JStr (BasicForm.username d))
              && truthy (JStr (BasicForm.password d)) = true).
  { apply andb_true_iff. split; apply not_false_iff_true;
      intros E; apply truthy_str_false in E; contradiction. }
  unfold BasicForm.after.
  rewrite (basic_submit_fulfilled env d token response H Ht Hr). cbv zeta.
  rewrite Hn. destruct (truthy (get (get response "data") "success")); reflexivity.
Qed.

Lemma basic_error_survives_success_witness :
  let env := answering (Response 200 (JObj {[ "success" := JBool true ]})) in
  let d := BasicForm.mkData "ann" "pw" (JStr "Please fill in all fields") false in
  BasicForm.error (BasicForm.after env d) = JStr "Please fill in all fields"
  /\ commits (BasicForm.effects env d) = [("setUser", JUndefined)].
Proof.
  cbv zeta. split; [|reflexivity].
  apply (basic_error_survives_success
           (answering (Response 200 (JObj {[ "success" := JBool true ]})))
           (BasicForm.mkData "ann" "pw" (JStr "Please fill in all fields") false)
           "token"
           (response_object 200 (JObj {[ "success" := JBool true ]})));
    (reflexivity || discriminate).
Defined.

(* ===================================================================== *)
(** ** The minimal form                                                   *)
(* ===================================================================== *)

Lemma minimal_submit env d :
  let post := Post "/api/login"
                (Method.credentials (MinimalForm.username d) (MinimalForm.password d))
                JUndefined in
  let failed := MinimalForm.set_error "Something went wrong. Please try again." d in
  MinimalForm.submit env d =
  match axios_post env "/api/login"
          (Method.credentials (MinimalForm.username d) (MinimalForm.password d))
          JUndefined with
  | Rejected _ => (Normal tt, (failed, [post]))
  | Fulfilled response =>
      if nullish response || nullish (get response "data") then
        (Normal tt, (failed, [post]))
      else if truthy (get (get response "data") "success") then
        (Normal tt,
         (d, [post; Commit "setUser" (get (get response "data") "user");
              Emit "success" (JStr "Login successful!")]))
      else (Normal tt, (d, [post]))
  end.
Proof.
  cbv zeta. unfold MinimalForm.submit, MinimalForm.handleSubmit,
    Method.try_catch, Method.bind, Method.read, Method.await_post, Method.bind.
  simpl.
  destruct (axios_post env "/api/login" _ JUndefined) as [response | reason];
    [|reflexivity].
  unfold Method.on_response, Method.bind, Method.ret, Method.prop.
  destruct (nullish response) eqn:Hn; [reflexivity|]. simpl.
  destruct (nullish (get response "data")) eqn:Hd; [reflexivity|].
  unfold Method.ret.
  destruct (truthy (get (get response "data") "success")); reflexivity.
Qed.

(** X19: the minimal form validates nothing and never fails to finish:
    every submission, even with empty fields, makes exactly one request
    to /api/login (credentials only, no token header), completes
    normally, and leaves the username and the password as they were. *)
Theorem minimal_always_requests env d :
  filter is_post (MinimalForm.effects env d)
  = [Post "/api/login"
       (Method.credentials (MinimalForm.username d) (MinimalForm.password d))
       JUndefined]
  /\ fst (MinimalForm.submit env d) = Normal tt
  /\ MinimalForm.username (MinimalForm.after env d) = MinimalForm.username d
  /\ MinimalForm.password (MinimalForm.after env d) = MinimalForm.password d.
Proof.
  unfold MinimalForm.effects, MinimalForm.after.
  rewrite minimal_submit. cbv zeta.
  destruct (axios_post env "/api/login" _ JUndefined) as [response | reason];
    [|repeat split].
  destruct (nullish response || nullish (get response "data")); [repeat split|].
  destruct (truthy (get (get response "data") "success")); repeat split.
Qed.

(** X20: the minimal form has one message for every failure: after any
    rejection, whatever its reason (an error with a response, without
    one, or no error object at all), the form error is "Something went
    wrong. Please try again." and nothing is committed or emitted. *)
Theorem minimal_single_failure_message env d reason :
  axios_post env "/api/login"
    (Method.credentials (MinimalForm.username d) (MinimalForm.password d))
    JUndefined = Rejected reason ->
  MinimalForm.error (MinimalForm.after env d)
  = "Something went wrong. Please try again."
  /\ commits (MinimalForm.effects env d) = []
  /\ emits (MinimalForm.effects env d) = [].
Proof.
  intros Hr. unfold MinimalForm.effects, MinimalForm.after.
  rewrite minimal_submit. cbv zeta. rewrite Hr. repeat split.
Qed.

Lemma minimal_single_failure_message_witness :
  let env := mkEnv None (fun _ _ _ => Rejected JNull) in
  MinimalForm.error (MinimalForm.after env (MinimalForm.mkData "" "" ""))
  = "Something went wrong. Please try again.".
Proof.
  cbv zeta.
  apply (minimal_single_failure_message
           (mkEnv None (fun _ _ _ => Rejected JNull))
           (MinimalForm.mkData "" "" "") JNull).
  reflexivity.
Defined.
